(** * Sanity checks of the openshift-ansible inventory

    A shallow embedding of the action plugin
    [roles/lib_utils/action_plugins/sanity_checks.py] and the properties of
    its rules.

    Layout: Python values; the state-and-exception monad of the plugin and
    the builtins it uses; a backtracking matcher for the two image-tag
    patterns; the constants of the plugin; the vocabulary of the
    properties and some example inventories; the plugin itself, rule by
    rule; then the properties, rule by rule, and last the runner. *)

From Stdlib Require Import ZArith String Ascii List Lia.
From Stdlib Require Import Floats.PrimFloat Floats.SpecFloat Floats.FloatOps.
From stdpp Require Import gmap strings list pretty.

Set Warnings "-register-all".
Open Scope string_scope.
Open Scope list_scope.

(** ** Python values

    Inventory variables are YAML or INI data: scalars, lists, and mappings
    with string keys.  Every comparison of the plugin has a scalar literal
    on one side, so scalars are kept apart from containers. *)

Inductive scalar :=
| SNone
| SBool (b : bool)
| SInt (n : Z)
| SFloat (f : float)
| SStr (s : string).

Inductive value :=
| VScalar (a : scalar)
| VList (l : list value)
| VDict (d : gmap string value).

Abbreviation VNone := (VScalar SNone).
Abbreviation VBool b := (VScalar (SBool b)).
Abbreviation VInt n := (VScalar (SInt n)).
Abbreviation VFloat f := (VScalar (SFloat f)).
Abbreviation VStr s := (VScalar (SStr s)).

(** Exact comparison of a binary64 float with an integer, as Python does
    it for [float == int]: no rounding of the integer. *)
Definition float_eqb_Z (f : float) (n : Z) : bool :=
  match Prim2SF f with
  | S754_zero _ => (n =? 0)%Z
  | S754_finite s m e =>
      let mant := if s then Z.neg m else Z.pos m in
      if (0 <=? e)%Z then (mant * 2 ^ e =? n)%Z
      else (mant =? n * 2 ^ (- e))%Z
  | _ => false
  end.

Definition Z_of_bool (b : bool) : Z := if b then 1%Z else 0%Z.

(** [a == b] on scalars.  [bool] is a subclass of [int], and numbers of
    different types compare by value; a string only equals a string and
    [None] only equals [None]. *)
Definition scalar_eqb (a b : scalar) : bool :=
  match a, b with
  | SNone, SNone => true
  | SBool x, SBool y => Bool.eqb x y
  | SBool x, SInt n | SInt n, SBool x => (Z_of_bool x =? n)%Z
  | SBool x, SFloat f | SFloat f, SBool x => float_eqb_Z f (Z_of_bool x)
  | SInt n, SInt m => (n =? m)%Z
  | SInt n, SFloat f | SFloat f, SInt n => float_eqb_Z f n
  | SFloat f, SFloat g => PrimFloat.eqb f g
  | SStr s, SStr t => String.eqb s t
  | _, _ => false
  end.

(** [v == lit] for a scalar literal [lit]: a list or a mapping never
    equals a scalar. *)
Definition py_eq (v : value) (lit : scalar) : bool :=
  match v with
  | VScalar a => scalar_eqb a lit
  | _ => false
  end.

(** [v in tup] for a tuple of scalar literals. *)
Definition py_in (v : value) (tup : list scalar) : bool :=
  existsb (py_eq v) tup.

(** Truth value of an object, as [not v] and [if v] take it. *)
Definition py_truthy (v : value) : bool :=
  match v with
  | VNone => false
  | VBool b => b
  | VInt n => negb (n =? 0)%Z
  | VFloat f => negb (PrimFloat.eqb f 0%float)
  | VStr s => negb (String.eqb s "")
  | VList l => match l with [] => false | _ => true end
  | VDict d => negb (bool_decide (d = ∅))
  end.

(** [len(v)]; [None] where Python raises [TypeError]. *)
Definition py_len (v : value) : option nat :=
  match v with
  | VStr s => Some (String.length s)
  | VList l => Some (length l)
  | VDict d => Some (size d)
  | _ => None
  end.

(** ** Exceptions and the plugin's monad

    [template_var] writes two attributes of the plugin object before every
    lookup, and every rule may raise.  The attributes survive a raise, so
    the state is returned next to the outcome. *)

Inductive exn :=
| AnsibleModuleError (msg : string)
| AnsibleModuleError_hostvars (hostvars : option (gmap string (gmap string value)))
    (* [AnsibleModuleError(hostvars)], the message being the missing or
       empty [hostvars] object itself *)
| KeyError (key : value)
| TypeError.

Inductive outcome (A : Type) :=
| Return (a : A)
| Raise (e : exn).
Arguments Return {A} a.
Arguments Raise {A} e.

Record ctx := mk_ctx { last_checked_host : string; last_checked_var : string }.

Definition M (A : Type) : Type := ctx → outcome A * ctx.

Definition ret {A} (a : A) : M A := λ c, (Return a, c).
Definition raise {A} (e : exn) : M A := λ c, (Raise e, c).
Definition bind {A B} (m : M A) (k : A → M B) : M B :=
  λ c, match m c with
       | (Return a, c') => k a c'
       | (Raise e, c') => (Raise e, c')
       end.
Definition set_last (var host : string) : M unit :=
  λ _, (Return tt, {| last_checked_host := host; last_checked_var := var |}).
Definition get_ctx : M ctx := λ c, (Return c, c).

(** [try: m except Exception as e: h e] *)
Definition try_except {A} (m : M A) (h : exn → M A) : M A :=
  λ c, match m c with
       | (Return a, c') => (Return a, c')
       | (Raise e, c') => h e c'
       end.

Declare Scope py_scope.
Delimit Scope py_scope with py.
Notation "x <- m ;; k" := (bind m (λ x, k))
  (at level 100, m at next level, right associativity) : py_scope.
Notation "m ;;; k" := (bind m (λ _, k))
  (at level 100, right associativity) : py_scope.
Open Scope py_scope.

(** [for x in xs: body x] *)
Fixpoint for_each {A} (xs : list A) (body : A → M unit) : M unit :=
  match xs with
  | [] => ret tt
  | x :: xs' => body x ;;; for_each xs' body
  end.

(** The outcome of a computation, the state put aside. *)
Definition result {A} (m : M A) (c : ctx) : outcome A := (m c).1.

(** [len(v)] inside the monad. *)
Definition len (v : value) : M nat :=
  match py_len v with
  | Some n => ret n
  | None => raise TypeError
  end.

(** The characters of a string, each as a string of length one. *)
Fixpoint chars (s : string) : list value :=
  match s with
  | EmptyString => []
  | String a s' => VStr (String a EmptyString) :: chars s'
  end.

(** [for x in v]: the items [v] yields.  A mapping yields its keys; which
    order they come in plays no part in the plugin. *)
Definition py_iter (v : value) : M (list value) :=
  match v with
  | VList l => ret l
  | VDict d => ret ((λ kv, VStr kv.1) <$> map_to_list d)
  | VStr s => ret (chars s)
  | _ => raise TypeError
  end.

(** [table[key]] for a table with string keys: a scalar that is no key
    of it raises [KeyError], a list or a mapping cannot be hashed. *)
Definition table_getitem {A} (table : gmap string A) (key : value) : M A :=
  match key with
  | VStr k =>
      match table !! k with
      | Some x => ret x
      | None => raise (KeyError key)
      end
  | VScalar _ => raise (KeyError key)
  | _ => raise TypeError
  end.

(** [v[key]] for a string key: only a mapping can be subscripted by a
    string. *)
Definition py_getitem (v : value) (key : string) : M value :=
  match v with
  | VDict d =>
      match d !! key with
      | Some x => ret x
      | None => raise (KeyError (VStr key))
      end
  | _ => raise TypeError
  end.

(** [key in v] for a string key: key membership in a mapping, element
    membership in a list, substring test in a string. *)
Definition py_contains (v : value) (key : string) : M bool :=
  match v with
  | VDict d => ret (bool_decide (is_Some (d !! key)))
  | VList l => ret (existsb (λ x, py_eq x (SStr key)) l)
  | VStr s => ret (bool_decide (is_Some (String.index 0 key s)))
  | _ => raise TypeError
  end.

(** [v is None] *)
Definition is_None (v : value) : bool :=
  match v with
  | VNone => true
  | _ => false
  end.

(** [issubclass(type(v), list)] *)
Definition is_list (v : value) : bool :=
  match v with
  | VList _ => true
  | _ => false
  end.

(** [template.format(a1, ..., an)] for templates whose only fields are [{}]:
    the fields are filled from [args] in order. *)
Fixpoint py_format (template : string) (args : list string) : string :=
  match template with
  | EmptyString => EmptyString
  | String "{" (String "}" rest) =>
      match args with
      | a :: args' => a +:+ py_format rest args'
      | [] => "{}" +:+ py_format rest []
      end
  | String ch rest => String ch (py_format rest args)
  end.

(** [sep.join(items)] *)
Fixpoint py_join (sep : string) (items : list string) : string :=
  match items with
  | [] => ""
  | [x] => x
  | x :: rest => x +:+ sep +:+ py_join sep rest
  end.

(** [str(b)] for a boolean. *)
Definition str_of_bool (b : bool) : string := if b then "True" else "False".

(** [str(list(zip(names, flags)))]: a list of pairs of a string and a
    boolean, as Python prints it. *)
Definition str_of_pairs (pairs : list (string * bool)) : string :=
  "[" +:+ py_join ", "
            ((λ p, "('" +:+ p.1 +:+ "', " +:+ str_of_bool p.2 +:+ ")") <$> pairs)
      +:+ "]".

(** [sum(flags)] for a list of booleans. *)
Definition py_sum (flags : list bool) : Z :=
  foldr (λ b acc, (Z_of_bool b + acc)%Z) 0%Z flags.

(** ** Regular expressions

    The fragment of Python's [re] syntax used by the two tag patterns, and
    a backtracking matcher.  The matcher returns, for every way the
    pattern can match a prefix of the input, what is left of the input, the
    preferred (greedy) alternative first.  Characters are bytes: [\d] is
    one of [0]..[9]. *)

Inductive regex :=
| Lit (ch : ascii)          (* a literal character, also an escaped one *)
| Digit                     (* \d *)
| AnyChar                   (* .  : any character but a newline *)
| Bol                       (* ^  *)
| Eol                       (* $  : at the end, or before a last newline *)
| Eps                       (* the empty pattern *)
| Cat (r1 r2 : regex)
| Opt (r : regex)           (* r? *)
| Star (r : regex)          (* r* *)
| Plus (r : regex)          (* r+ *)
| Group (r : regex).        (* (r) *)

Definition is_digit (ch : ascii) : bool :=
  let n := nat_of_ascii ch in (48 <=? n)%nat && (n <=? 57)%nat.

Definition newline : ascii := ascii_of_nat 10.

(** Iteration of one step of matching, as often as the input allows.  An
    iteration that consumes nothing is not repeated, and [fuel] bounds the
    number of iterations by the length of the input. *)
Fixpoint star (step : list ascii → list (list ascii)) (fuel : nat)
    (s : list ascii) : list (list ascii) :=
  match fuel with
  | O => [s]
  | S fuel' =>
      flat_map (λ s', if (length s' <? length s)%nat
                      then star step fuel' s' else [])
               (step s) ++ [s]
  end.

(** [matches total r s]: the remainders of [s] after a match of [r]
    at its start; [total] is the length of the whole subject, by which
    [^] recognises its start. *)
Fixpoint matches (total : nat) (r : regex) (s : list ascii)
    : list (list ascii) :=
  match r with
  | Lit ch =>
      match s with
      | a :: s' => if Ascii.eqb a ch then [s'] else []
      | [] => []
      end
  | Digit =>
      match s with
      | a :: s' => if is_digit a then [s'] else []
      | [] => []
      end
  | AnyChar =>
      match s with
      | a :: s' => if Ascii.eqb a newline then [] else [s']
      | [] => []
      end
  | Bol => if (length s =? total)%nat then [s] else []
  | Eol =>
      match s with
      | [] => [s]
      | [a] => if Ascii.eqb a newline then [s] else []
      | _ => []
      end
  | Eps => [s]
  | Cat r1 r2 => flat_map (matches total r2) (matches total r1 s)
  | Opt r' => matches total r' s ++ [s]
  | Star r' => star (matches total r') (length s) s
  | Plus r' =>
      flat_map (λ s', star (matches total r') (length s') s')
               (matches total r' s)
  | Group r' => matches total r' s
  end.

(** [re.match(r, subject)]: [None] when the pattern matches no prefix of
    the subject, else the match, given by what it leaves unread. *)
Definition re_match (r : regex) (subject : string) : option (list ascii) :=
  let s := list_ascii_of_string subject in
  head (matches (length s) r s).

(** [r1 r2 ... rn] written one after the other. *)
Definition cat_all (rs : list regex) : regex := foldr Cat Eps rs.

(** ** The plugin: constants *)

(** Valid values for openshift_deployment_type *)
Definition VALID_DEPLOYMENT_TYPES : list string :=
  ["origin"; "openshift-enterprise"].

(** Variable names and default values if undefined. *)
Definition NET_PLUGIN_LIST : list (string * value) :=
  [("openshift_use_openshift_sdn", VBool true);
   ("openshift_use_flannel", VBool false);
   ("openshift_use_nuage", VBool false);
   ("openshift_use_contiv", VBool false);
   ("openshift_use_calico", VBool false);
   ("openshift_use_kuryr", VBool false)].

Definition ENTERPRISE_TAG_REGEX_ERROR : string :=
"openshift_image_tag must be in the format
v#.#[.#[.#]]. Examples: v1.2, v3.4.1, v3.5.1.3,
v3.5.1.3.4, v1.2-1, v1.2.3-4, v1.2.3-4.5, v1.2.3-4.5.6
You specified openshift_image_tag={}".

Definition ORIGIN_TAG_REGEX_ERROR : string :=
"openshift_image_tag must be in the format
v#.#[.#-optional.#]. Examples: v1.2.3, v3.5.1-alpha.1
You specified openshift_image_tag={}".

Record tag_regex := { re : regex; error_msg : string }.

(** The pattern, its tokens set apart:  ( ^ v? \d+ \. \d+ .* )  *)
Definition ORIGIN_TAG_REGEX : tag_regex :=
  {| re := Group (cat_all [Bol; Opt (Lit "v"); Plus Digit; Lit ".";
                           Plus Digit; Star AnyChar]);
     error_msg := ORIGIN_TAG_REGEX_ERROR |}.

(** The pattern, its tokens set apart:
    ( ^ v \d+ \. \d+ ( \. \d+ )* ( - \d+ ( \. \d+ )* )? $ )  *)
Definition ENTERPRISE_TAG_REGEX : tag_regex :=
  {| re := Group (cat_all
             [Bol; Lit "v"; Plus Digit; Lit "."; Plus Digit;
              Star (Group (cat_all [Lit "."; Plus Digit]));
              Opt (Group (cat_all
                     [Lit "-"; Plus Digit;
                      Star (Group (cat_all [Lit "."; Plus Digit]))]));
              Eol]);
     error_msg := ENTERPRISE_TAG_REGEX_ERROR |}.

Definition IMAGE_TAG_REGEX : gmap string tag_regex :=
  {[ "origin" := ORIGIN_TAG_REGEX;
     "openshift-enterprise" := ENTERPRISE_TAG_REGEX ]}.

Definition STORAGE_KIND_TUPLE : list string :=
  ["openshift_hosted_registry_storage_kind";
   "openshift_loggingops_storage_kind";
   "openshift_logging_storage_kind";
   "openshift_metrics_storage_kind";
   "openshift_prometheus_alertbuffer_storage_kind";
   "openshift_prometheus_alertmanager_storage_kind";
   "openshift_prometheus_storage_kind"].

Definition yes_list : list scalar :=
  [SBool true; SInt 1; SStr "True"; SStr "1"; SStr "true"; SStr "TRUE";
   SStr "Yes"; SStr "yes"; SStr "Y"; SStr "y"; SStr "YES";
   SStr "on"; SStr "ON"; SStr "On"].

(** Determine a boolean value given the multiple ways bools can be
    specified in ansible. *)
Definition to_bool (var_to_check : value) : bool :=
  py_in var_to_check yes_list.

(** ** Vocabulary of the properties *)

(** A rule fails: it raises the error of the plugin, with some message. *)
Definition fails {A} (o : outcome A) : Prop :=
  ∃ msg, o = Raise (AnsibleModuleError msg).

(** A computation raises, whatever the exception. *)
Definition raises {A} (o : outcome A) : Prop :=
  ∃ e, o = Raise e.

(** The outcome of a loop whose body's outcome is [f x] at [x]: the first
    exception, if there is one. *)
Fixpoint first_raise {A} (f : A → outcome unit) (xs : list A)
    : outcome unit :=
  match xs with
  | [] => Return tt
  | x :: xs' =>
      match f x with
      | Return _ => first_raise f xs'
      | Raise e => Raise e
      end
  end.

(** The truthy representations, as the specification enumerates them. *)
Definition truthy_representations : list value :=
  [VBool true; VInt 1; VStr "True"; VStr "1"; VStr "true"; VStr "TRUE";
   VStr "Yes"; VStr "yes"; VStr "Y"; VStr "y"; VStr "YES";
   VStr "on"; VStr "ON"; VStr "On"].

(** The enterprise tag format in the words of the specification: [v],
    digits, a dot, digits, then any number of groups of a dot and digits,
    then optionally a dash, digits, and again groups of a dot and digits;
    nothing before and nothing after. *)
Definition digits (s : string) : bool :=
  negb (String.eqb s "") && forallb is_digit (list_ascii_of_string s).

Definition dotted (groups : list string) : string :=
  foldr (λ g acc, "." +:+ g +:+ acc) "" groups.

Record enterprise_tag := {
  et_major : string;
  et_minor : string;
  et_more : list string;
  et_build : option (string * list string)
}.

Definition enterprise_tag_wf (t : enterprise_tag) : bool :=
  digits (et_major t) && digits (et_minor t) && forallb digits (et_more t)
  && match et_build t with
     | None => true
     | Some (b, bs) => digits b && forallb digits bs
     end.

Definition enterprise_tag_text (t : enterprise_tag) : string :=
  "v" +:+ et_major t +:+ "." +:+ et_minor t +:+ dotted (et_more t)
  +:+ match et_build t with
      | None => ""
      | Some (b, bs) => "-" +:+ b +:+ dotted bs
      end.

(** A tag the enterprise pattern takes: one of the enterprise format, or
    one followed by a single newline, which [$] lets pass. *)
Definition enterprise_tag_shape (tag : string) : Prop :=
  ∃ t, enterprise_tag_wf t = true
       ∧ (tag = enterprise_tag_text t
          ∨ tag = enterprise_tag_text t +:+ String newline "").

(** A tag the origin pattern takes: an optional [v], digits, a dot,
    digits, and then anything. *)
Definition origin_tag_shape (tag : string) : Prop :=
  ∃ v major minor rest,
    (v = "" ∨ v = "v") ∧ digits major = true ∧ digits minor = true
    ∧ tag = v +:+ major +:+ "." +:+ minor +:+ rest.

(** The number of flags that are set. *)
Definition count_true (flags : list bool) : nat :=
  length (filter (λ b, b = true) flags).

(** Secrets of a valid length; a value without a length is not one. *)
Definition auth_secret_ok (v : value) : Prop :=
  ∃ n, py_len v = Some n ∧ (32 ≤ n)%nat.

Definition encryption_secret_ok (v : value) : Prop :=
  ∃ n, py_len v = Some n ∧ (n = 16 ∨ n = 24 ∨ n = 32)%nat.

Definition sized (v : value) : Prop := is_Some (py_len v).

(** What the two loops over the secrets do at one secret. *)
Definition auth_secret_outcome (secret : value) : outcome unit :=
  match py_len secret with
  | None => Raise TypeError
  | Some n =>
      if (n <? 32)%nat then
        Raise (AnsibleModuleError
          "Invalid secret in openshift_master_session_auth_secrets. Secrets must be at least 32 characters in length.")
      else Return tt
  end.

Definition encryption_secret_outcome (secret : value) : outcome unit :=
  match py_len secret with
  | None => Raise TypeError
  | Some n =>
      if negb (bool_decide (n ∈ [16; 24; 32]%nat)) then
        Raise (AnsibleModuleError
          "Invalid secret in openshift_master_session_encryption_secrets. Secrets must be 16, 24, or 32 characters in length.")
      else Return tt
  end.

(** The legacy keys of an htpasswd provider, and a provider record that
    is of the htpasswd kind and holds the key [k]. *)
Definition legacy_keys : list string :=
  ["file"; "fileName"; "file_name"; "filename"].

Definition legacy_htpasswd_provider (k : string) (idp : value) : Prop :=
  ∃ d kind, idp = VDict d ∧ d !! "kind" = Some kind
            ∧ kind = VStr "HTPasswdPasswordIdentityProvider"
            ∧ k ∈ legacy_keys ∧ is_Some (d !! k).

(** A provider record: a mapping with a [kind] field. *)
Definition provider_record (idp : value) : Prop :=
  ∃ d kind, idp = VDict d ∧ d !! "kind" = Some kind.

(** The message about the legacy key [old_key]. *)
Definition htpasswd_msg (old_key : string) : string :=
  "openshift_master_identity_providers contains a provider of kind==HTPasswdPasswordIdentityProvider and "
  +:+ old_key
  +:+ " is set.  Please migrate your htpasswd files to /etc/origin/master/htpasswd and update your existing master configs, and remove the "
  +:+ old_key +:+ " keybefore proceeding.".

(** What the loop over the providers does at one provider. *)
Definition provider_outcome (idp : value) : outcome unit :=
  match idp with
  | VDict d =>
      match d !! "kind" with
      | None => Raise (KeyError (VStr "kind"))
      | Some kind =>
          if py_eq kind (SStr "HTPasswdPasswordIdentityProvider") then
            first_raise
              (λ old_key, if bool_decide (is_Some (d !! old_key))
                          then Raise (AnsibleModuleError (htpasswd_msg old_key))
                          else Return tt)
              legacy_keys
          else Return tt
      end
  | _ => Raise TypeError
  end.

(** A computation that does not read the state it starts in: neither its
    outcome nor the state it leaves depends on it. *)
Definition oblivious {A} (m : M A) : Prop := ∀ c c', m c = m c'.

(** A computation whose outcome does not depend on the state. *)
Definition stateless {A} (m : M A) : Prop :=
  ∀ c c', result m c = result m c'.

(** A computation that leaves [host] as the last checked host if it
    starts with it. *)
Definition keeps_host (host : string) {A} (m : M A) : Prop :=
  ∀ c, last_checked_host c = host → last_checked_host (m c).2 = host.

(** A computation that leaves [host] as the last checked host. *)
Definition names_host (host : string) {A} (m : M A) : Prop :=
  ∀ c, last_checked_host (m c).2 = host.

(** A hostname value the hostname rule lets pass: a falsy one, or one
    with a length of at most 63. *)
Definition hostname_ok (v : value) : Prop :=
  py_truthy v = false ∨ ∃ n, py_len v = Some n ∧ (n ≤ 63)%nat.

(** What the loop of the hostname rule does at the variable [varname]
    whose value is [v]. *)
Definition hostname_outcome (varname : string) (v : value) : outcome unit :=
  if py_truthy v then
    match py_len v with
    | None => Raise TypeError
    | Some n =>
        if (63 <? n)%nat then
          Raise (AnsibleModuleError
                   (varname +:+ " must be 63 characters or less"))
        else Return tt
    end
  else Return tt.

(** A computation that leaves the state as it finds it. *)
Definition leaves_state {A} (m : M A) : Prop := ∀ c, (m c).2 = c.

(** ** The plugin: [ActionModule] *)

Abbreviation hostvars_t := (gmap string (gmap string value)).

(** The variables in scope of the task, of which the plugin reads
    [hostvars] only. *)
Record task_vars_t := { tv_hostvars : option hostvars_t }.

(** ** Example inventories *)

(** An inventory without templates: the templar gives every value back. *)
Definition plain_templar (v : value) : value := v.

(** Stand-ins for the texts of Python, which no example reaches. *)
Definition object_text (v : value) : string := "<object>".
Definition exception_text (e : exn) : string := "<exception>".

Definition start_ctx : ctx :=
  {| last_checked_host := "none"; last_checked_var := "none" |}.

Definition python_facts (major : Z) : value :=
  VDict {[ "version" := VDict {[ "major" := VInt major ]} ]}.

(** The host of the end-to-end example: origin, the tag "latest", the
    default network plugin, a short hostname, nothing else set. *)
Definition host1_vars : gmap string value :=
  {[ "ansible_distribution" := VStr "CentOS";
     "ansible_python" := python_facts 2;
     "openshift_deployment_type" := VStr "origin";
     "openshift_image_tag" := VStr "latest";
     "openshift_hostname" := VStr "host1.example.com" ]}.

Definition inventory (host_vars : gmap string value) : hostvars_t :=
  {[ "host1" := host_vars ]}.

Definition secret (ch : ascii) (n : nat) : value :=
  VStr (string_of_list_ascii (repeat ch n)).

(** Two auth secrets of 32 characters, two encryption secrets of 16 and
    of 24. *)
Definition session_vars : gmap string value :=
  {[ "openshift_master_session_auth_secrets" :=
       VList [secret "a" 32; secret "b" 32];
     "openshift_master_session_encryption_secrets" :=
       VList [secret "c" 16; secret "d" 24] ]}.

(** An htpasswd provider that still names its file. *)
Definition htpasswd_provider : gmap string value :=
  {[ "name" := VStr "htpasswd_auth";
     "kind" := VStr "HTPasswdPasswordIdentityProvider";
     "filename" := VStr "/etc/origin/master/htpasswd" ]}.

Definition htpasswd_vars : gmap string value :=
  {[ "openshift_master_identity_providers" :=
       VList [VDict htpasswd_provider] ]}.

(** The same provider after the migration: no legacy key is left. *)
Definition migrated_provider : gmap string value :=
  {[ "name" := VStr "htpasswd_auth";
     "kind" := VStr "HTPasswdPasswordIdentityProvider" ]}.

Definition migrated_vars : gmap string value :=
  {[ "openshift_master_identity_providers" :=
       VList [VDict migrated_provider] ]}.

(** A second host whose deployment type is not a valid one. *)
Definition two_hosts : hostvars_t :=
  {[ "host1" := host1_vars;
     "host2" := {[ "openshift_deployment_type" := VStr "atomic" ]} ]}.

(** A hostname of [n] characters. *)
Definition hostname_of_length (n : nat) : value :=
  VStr (string_of_list_ascii (repeat "h"%char n)).

Section ActionModule.

Set Default Proof Using "Type".

(** What the plugin takes from its surroundings: the templar of Ansible,
    and the text Python gives for a float, a list or a mapping, and for
    an exception of its own. *)
Variable template : value → value.
Variable str_of_object : value → string.
Variable str_of_exception : exn → string.

(** [str(v)] *)
Definition py_str (v : value) : string :=
  match v with
  | VStr s => s
  | VBool b => str_of_bool b
  | VInt n => pretty n
  | VNone => "None"
  | _ => str_of_object v
  end.

(** [str(e)] for a caught exception. *)
Definition py_str_exn (e : exn) : string :=
  match e with
  | AnsibleModuleError msg => msg
  | _ => str_of_exception e
  end.

(** Retrieve a variable from hostvars and template it.
    If undefined, return None type. *)
Definition template_var (hostvars : hostvars_t) (host varname : string)
    : M value :=
  set_last varname host ;;;
  match hostvars !! host with
  | None => raise (KeyError (VStr host))
  | Some host_vars =>
      match host_vars !! varname with
      | None | Some VNone => ret VNone
      | Some res => ret (template res)
      end
  end.

(** Ensure a valid openshift_deployment_type is set *)
Definition check_openshift_deployment_type (hostvars : hostvars_t)
    (host : string) : M value :=
  openshift_deployment_type <-
    template_var hostvars host "openshift_deployment_type" ;;
  if negb (py_in openshift_deployment_type (SStr <$> VALID_DEPLOYMENT_TYPES))
  then
    let type_strings := py_join ", " VALID_DEPLOYMENT_TYPES in
    let msg := py_format
                 "openshift_deployment_type must be defined and one of {}"
                 [type_strings] in
    raise (AnsibleModuleError msg)
  else ret openshift_deployment_type.

(** Ensure python version is 3 for Fedora and python 2 for others *)
Definition check_python_version (hostvars : hostvars_t) (host : string)
    (distro : value) : M unit :=
  ansible_python <- template_var hostvars host "ansible_python" ;;
  if py_eq distro (SStr "Fedora") then
    version <- py_getitem ansible_python "version" ;;
    major <- py_getitem version "major" ;;
    if negb (py_eq major (SInt 3)) then
      let msg := py_format "openshift-ansible requires Python 3 for {};"
                           [py_str distro] in
      let msg := msg +:+ " For information on enabling Python 3 with Ansible," in
      let msg := msg +:+ " see https://docs.ansible.com/ansible/python_3_support.html" in
      raise (AnsibleModuleError msg)
    else ret tt
  else
    version <- py_getitem ansible_python "version" ;;
    major <- py_getitem version "major" ;;
    if negb (py_eq major (SInt 2)) then
      (* the message is built and dropped *)
      let msg := py_format "openshift-ansible requires Python 2 for {};"
                           [py_str distro] in
      ret tt
    else ret tt.

(** Ensure openshift_image_tag is formatted correctly *)
Definition check_image_tag_format (hostvars : hostvars_t) (host : string)
    (openshift_deployment_type : value) : M unit :=
  openshift_image_tag <- template_var hostvars host "openshift_image_tag" ;;
  if negb (py_truthy openshift_image_tag)
     || py_eq openshift_image_tag (SStr "latest")
  then ret tt
  else
    entry <- table_getitem IMAGE_TAG_REGEX openshift_deployment_type ;;
    let regex_to_match := re entry in
    let res := re_match regex_to_match (py_str openshift_image_tag) in
    match res with
    | None =>
        entry <- table_getitem IMAGE_TAG_REGEX openshift_deployment_type ;;
        let msg := error_msg entry in
        let msg := py_format msg [py_str openshift_image_tag] in
        raise (AnsibleModuleError msg)
    | Some _ => ret tt
    end.

(** The loop of [network_plugin_check]: the boolean of every plugin
    variable, in the order of [NET_PLUGIN_LIST]. *)
Fixpoint net_plugin_flags (hostvars : hostvars_t) (host : string)
    (plugins : list (string * value)) : M (list bool) :=
  match plugins with
  | [] => ret []
  | (plugin, default_val) :: rest =>
      res_temp <- template_var hostvars host plugin ;;
      let res_temp := if is_None res_temp then default_val else res_temp in
      flags <- net_plugin_flags hostvars host rest ;;
      ret (to_bool res_temp :: flags)
  end.

(** Ensure only one type of network plugin is enabled *)
Definition network_plugin_check (hostvars : hostvars_t) (host : string)
    : M unit :=
  res <- net_plugin_flags hostvars host NET_PLUGIN_LIST ;;
  if negb (py_in (VInt (py_sum res)) [SInt 0; SInt 1]) then
    let plugin_str := zip (fst <$> NET_PLUGIN_LIST) res in
    let msg := py_format
                 "Host Checked: {} Only one of must be true. Found: {}"
                 [host; str_of_pairs plugin_str] in
    raise (AnsibleModuleError msg)
  else ret tt.

(** Checks to ensure openshift_hostname and openshift_public_hostname
    conform to the proper length of 63 characters or less *)
Definition check_hostname_vars (hostvars : hostvars_t) (host : string)
    : M unit :=
  for_each ["openshift_public_hostname"; "openshift_hostname"] (λ varname,
    var_value <- template_var hostvars host varname ;;
    if py_truthy var_value then
      n <- len var_value ;;
      if (63 <? n)%nat then
        let msg := py_format "{} must be 63 characters or less" [varname] in
        raise (AnsibleModuleError msg)
      else ret tt
    else ret tt).

(** Checks session_auth_secrets is correctly formatted *)
Definition check_session_auth_secrets (hostvars : hostvars_t) (host : string)
    : M unit :=
  sas <- template_var hostvars host "openshift_master_session_auth_secrets" ;;
  ses <- template_var hostvars host
           "openshift_master_session_encryption_secrets" ;;
  (* This variable isn't mandatory, only check if set. *)
  if is_None sas && is_None ses then ret tt
  else
    malformed <-
      (if negb (is_list sas && is_list ses) then ret true
       else
         n_sas <- len sas ;;
         n_ses <- len ses ;;
         ret (negb (n_sas =? n_ses)%nat)) ;;
    if malformed then
      raise (AnsibleModuleError
        "Expects openshift_master_session_auth_secrets and openshift_master_session_encryption_secrets are equal length lists")
    else
      secrets <- py_iter sas ;;
      for_each secrets (λ secret,
        n <- len secret ;;
        if (n <? 32)%nat then
          raise (AnsibleModuleError
            "Invalid secret in openshift_master_session_auth_secrets. Secrets must be at least 32 characters in length.")
        else ret tt) ;;;
      secrets <- py_iter ses ;;
      for_each secrets (λ secret,
        n <- len secret ;;
        if negb (bool_decide (n ∈ [16; 24; 32]%nat)) then
          raise (AnsibleModuleError
            "Invalid secret in openshift_master_session_encryption_secrets. Secrets must be 16, 24, or 32 characters in length.")
        else ret tt).

(** Fails if nfs storage is in use for any components. This check is
    ignored if openshift_enable_unsupported_configurations=True *)
Definition check_unsupported_nfs_configs (hostvars : hostvars_t)
    (host : string) : M unit :=
  enable_unsupported <-
    template_var hostvars host "openshift_enable_unsupported_configurations" ;;
  if to_bool enable_unsupported then ret tt
  else
    for_each STORAGE_KIND_TUPLE (λ storage,
      kind <- template_var hostvars host storage ;;
      if py_eq kind (SStr "nfs") then
        raise (AnsibleModuleError (py_format
          "nfs is an unsupported type for {}. openshift_enable_unsupported_configurations=True mustbe specified to continue with this configuration."
          [storage]))
      else ret tt).

(** Fails if openshift_master_identity_providers contains an entry of
    kind HTPasswdPasswordIdentityProvider and
    openshift_master_manage_htpasswd is False *)
Definition check_htpasswd_provider (hostvars : hostvars_t) (host : string)
    : M unit :=
  idps <- template_var hostvars host "openshift_master_identity_providers" ;;
  if negb (py_truthy idps) then
    (* If we don't find any identity_providers, nothing for us to do. *)
    ret tt
  else
    manage_pass <-
      template_var hostvars host "openshift_master_manage_htpasswd" ;;
    if to_bool manage_pass then
      (* If we manage the file, we can just generate in the new path. *)
      ret tt
    else
      let old_keys := ["file"; "fileName"; "file_name"; "filename"] in
      providers <- py_iter idps ;;
      for_each providers (λ idp,
        kind <- py_getitem idp "kind" ;;
        if py_eq kind (SStr "HTPasswdPasswordIdentityProvider") then
          for_each old_keys (λ old_key,
            (* [old_key in idp is not None] is a chain of comparisons:
               [old_key in idp and idp is not None] *)
            present <- py_contains idp old_key ;;
            if present && negb (is_None idp) then
              raise (AnsibleModuleError (py_format
                "openshift_master_identity_providers contains a provider of kind==HTPasswdPasswordIdentityProvider and {} is set.  Please migrate your htpasswd files to /etc/origin/master/htpasswd and update your existing master configs, and remove the {} keybefore proceeding."
                [old_key; old_key]))
            else ret tt)
        else ret tt).

(** Execute the hostvars validations against host *)
Definition run_checks (hostvars : hostvars_t) (host : string) : M unit :=
  distro <- template_var hostvars host "ansible_distribution" ;;
  odt <- check_openshift_deployment_type hostvars host ;;
  check_python_version hostvars host distro ;;;
  check_image_tag_format hostvars host odt ;;;
  network_plugin_check hostvars host ;;;
  check_hostname_vars hostvars host ;;;
  check_session_auth_secrets hostvars host ;;;
  check_unsupported_nfs_configs hostvars host ;;;
  check_htpasswd_provider hostvars host.

(** [run]; [base_result] is what the [run] of the base class returns,
    [check_hosts] the task parameter of that name if it is given. *)
Definition run (base_result : gmap string value)
    (check_hosts : option (list string)) (task_vars : option task_vars_t)
    : M (gmap string value) :=
  let result := base_result in
  let task_vars := default {| tv_hostvars := None |} task_vars in
  set_last "none" "none" ;;;
  match check_hosts with
  | None | Some [] => raise (AnsibleModuleError "check_hosts is required")
  | Some check_hosts =>
      (* We need to access each host's variables *)
      let hostvars := tv_hostvars task_vars in
      match hostvars with
      | None => raise (AnsibleModuleError_hostvars hostvars)
      | Some hv =>
          if bool_decide (hv = ∅)
          then raise (AnsibleModuleError_hostvars hostvars)
          else
            (* We loop through each host in the provided list check_hosts *)
            for_each check_hosts (λ host,
              try_except (run_checks hv host) (λ uncaught_e,
                c <- get_ctx ;;
                let msg := "last_checked_host: {}, last_checked_var: {};" in
                let msg := py_format msg [last_checked_host c;
                                          last_checked_var c] in
                let msg := msg +:+ py_str_exn uncaught_e in
                raise (AnsibleModuleError msg))) ;;;
            let result := <["changed" := VBool false]> result in
            let result := <["failed" := VBool false]> result in
            let result := <["msg" := VStr "Sanity Checks passed"]> result in
            ret result
      end
  end.

(** *** What the rules read *)

(** The value [template_var] gives for a variable of a host whose
    variables are [host_vars]: [None] when the variable is not set. *)
Definition resolved (host_vars : gmap string value) (varname : string)
    : value :=
  match host_vars !! varname with
  | None | Some VNone => VNone
  | Some res => template res
  end.

(** A network plugin toggle: the variable, or its declared default when
    the variable is not set, as a boolean. *)
Definition toggle (host_vars : gmap string value) (p : string * value)
    : bool :=
  let v := resolved host_vars p.1 in
  to_bool (if is_None v then p.2 else v).

(** * Properties *)

(** ** Running the monad *)

Lemma result_bind {A B} (m : M A) (k : A → M B) c a c' :
  m c = (Return a, c') → result (bind m k) c = result (k a) c'.
Proof. unfold result, bind. intros ->. reflexivity. Qed.

Lemma result_bind_raise {A B} (m : M A) (k : A → M B) c e c' :
  m c = (Raise e, c') → result (bind m k) c = Raise e.
Proof. unfold result, bind. intros ->. reflexivity. Qed.

Lemma template_var_eq hostvars host host_vars varname c :
  hostvars !! host = Some host_vars →
  template_var hostvars host varname c
  = (Return (resolved host_vars varname),
     {| last_checked_host := host; last_checked_var := varname |}).
Proof.
  intros Hh. unfold template_var, bind, set_last, resolved. rewrite Hh.
  destruct (host_vars !! varname) as [[[]| |]|]; reflexivity.
Qed.

Lemma bind_template_var {B} hostvars host host_vars varname
    (k : value → M B) c :
  hostvars !! host = Some host_vars →
  bind (template_var hostvars host varname) k c
  = k (resolved host_vars varname)
      {| last_checked_host := host; last_checked_var := varname |}.
Proof.
  intros Hh. unfold bind. rewrite (template_var_eq _ _ _ _ _ Hh). reflexivity.
Qed.

Lemma template_var_absent_host hostvars host varname c :
  hostvars !! host = None →
  result (template_var hostvars host varname) c = Raise (KeyError (VStr host)).
Proof.
  intros Hh. unfold result, template_var, bind, set_last. rewrite Hh.
  reflexivity.
Qed.

(** A loop whose body's outcome does not depend on the state ends with the
    first exception of its body. *)
Lemma for_each_eq {A} (body : A → M unit) (f : A → outcome unit) xs :
  (∀ x c, x ∈ xs → result (body x) c = f x) →
  ∀ c, ∃ c', for_each xs body c = (first_raise f xs, c').
Proof.
  induction xs as [|x xs IH]; intros Hf c; [by eexists|].
  cbn [for_each first_raise].
  specialize (Hf x c (list_elem_of_here _ _)) as Hx.
  unfold result in Hx. unfold bind.
  destruct (body x c) as [[[]|e] c'] eqn:E; cbn in Hx; rewrite <- Hx.
  - apply IH. intros y c0 Hy. apply Hf. by apply list_elem_of_further.
  - by eexists.
Qed.

Lemma for_each_first_raise {A} (body : A → M unit) (f : A → outcome unit) xs :
  (∀ x c, x ∈ xs → result (body x) c = f x) →
  ∀ c, result (for_each xs body) c = first_raise f xs.
Proof.
  intros Hf c. unfold result.
  by destruct (for_each_eq body f xs Hf c) as [c' ->].
Qed.

Lemma first_raise_return {A} (f : A → outcome unit) xs :
  first_raise f xs = Return tt ↔ ∀ x, x ∈ xs → f x = Return tt.
Proof.
  induction xs as [|x xs IH]; cbn.
  - split; [|done]. intros _ x Hx. by apply elem_of_nil in Hx.
  - destruct (f x) as [[]|e] eqn:E.
    + rewrite IH. split.
      * intros H y Hy. apply elem_of_cons in Hy as [->|Hy]; auto.
      * intros H y Hy. apply H. by apply list_elem_of_further.
    + split; [done|]. intros H.
      specialize (H x (list_elem_of_here _ _)). congruence.
Qed.

Lemma first_raise_raise {A} (f : A → outcome unit) xs e :
  first_raise f xs = Raise e → ∃ x, x ∈ xs ∧ f x = Raise e.
Proof.
  induction xs as [|x xs IH]; cbn; [done|].
  destruct (f x) as [[]|e'] eqn:E.
  - intros H. destruct (IH H) as (y & Hy & Hfy).
    exists y. split; [by apply list_elem_of_further|done].
  - intros [= ->]. exists x. split; [apply list_elem_of_here|done].
Qed.

(** ** Equality with a string literal *)

Lemma py_eq_str v s : py_eq v (SStr s) = true ↔ v = VStr s.
Proof.
  destruct v as [[| | | |t]| |]; cbn; try (split; [done|by intros [=]]).
  rewrite String.eqb_eq. split; [by intros ->|by intros [= ->]].
Qed.

Lemma py_eq_str_false v s : py_eq v (SStr s) = false ↔ v ≠ VStr s.
Proof.
  rewrite <- py_eq_str. destruct (py_eq v (SStr s)); split; congruence.
Qed.

Lemma py_eq_one v :
  py_eq v (SInt 1) = true
  ↔ v = VBool true ∨ v = VInt 1
    ∨ ∃ f, v = VFloat f ∧ float_eqb_Z f 1 = true.
Proof.
  destruct v as [[|b|n|f|s]|l|d]; cbn.
  all: try (split; [discriminate | intros [H|[H|(f'&H&_)]]; discriminate]).
  - destruct b; cbn; split; auto; try discriminate.
    intros [H|[H|(f'&H&_)]]; discriminate.
  - rewrite Z.eqb_eq. split; [intros ->; auto|].
    intros [H|[H|(f'&H&_)]]; try discriminate. by injection H.
  - split; [intros H; right; right; eauto|].
    intros [H|[H|(f'&H&Hf)]]; try discriminate. by injection H as ->.
Qed.

Lemma py_eq_True v :
  py_eq v (SBool true) = true
  ↔ v = VBool true ∨ v = VInt 1
    ∨ ∃ f, v = VFloat f ∧ float_eqb_Z f 1 = true.
Proof.
  destruct v as [[|b|n|f|s]|l|d]; cbn -[Z.eqb].
  all: try (split; [discriminate | intros [H|[H|(f'&H&_)]]; discriminate]).
  - destruct b; cbn; split; auto; try discriminate.
    intros [H|[H|(f'&H&_)]]; discriminate.
  - rewrite Z.eqb_eq. split; [intros <-; auto|].
    intros [H|[H|(f'&H&_)]]; try discriminate. by injection H as ->.
  - split; [intros H; right; right; eauto|].
    intros [H|[H|(f'&H&Hf)]]; try discriminate. by injection H as ->.
Qed.

(** ** The boolean coercion *)

(** C9, as the code has it: [to_bool] returns true if and only if the
    value is one of the enumerated truthy representations (boolean true,
    integer 1 and the twelve strings) or is a float equal to 1, which the
    membership test of Python, made with [==], also takes for the integer
    1; every other value gives false. *)
Theorem to_bool_true_iff (v : value) :
  to_bool v = true
  ↔ v ∈ truthy_representations
    ∨ ∃ f, v = VFloat f ∧ float_eqb_Z f 1 = true.
Proof.
  unfold to_bool, py_in, yes_list, truthy_representations.
  rewrite existsb_exists. setoid_rewrite <- list_elem_of_In.
  split.
  - intros (lit & Hin & Heq).
    rewrite !elem_of_cons, elem_of_nil in Hin.
    repeat (destruct Hin as [->|Hin]); [..|done].
    1: apply py_eq_True in Heq as [->|[->|?]]; [left|left|by right].
    3: apply py_eq_one in Heq as [->|[->|?]]; [left|left|by right].
    5-16: apply py_eq_str in Heq as ->; left.
    all: rewrite !elem_of_cons; tauto.
  - intros [Hin|(f & -> & Hf)].
    + rewrite !elem_of_cons, elem_of_nil in Hin.
      repeat (destruct Hin as [->|Hin]); [..|done].
      all: try (exists (SBool true); split; [|reflexivity]; rewrite !elem_of_cons; tauto).
      all: (eexists (SStr _); split; [|apply py_eq_str; reflexivity]; rewrite !elem_of_cons; tauto).
    + exists (SInt 1). split; [|done]. rewrite !elem_of_cons; tauto.
Qed.
(** ** The deployment type *)

(** C2: a resolved [openshift_deployment_type] that is neither of the two
    valid values, the absent one included, fails with the message that
    lists the valid choices; each valid value passes and is returned. *)
Theorem check_openshift_deployment_type_spec
    (hostvars : hostvars_t) (host : string) (host_vars : gmap string value)
    (c : ctx) :
  hostvars !! host = Some host_vars →
  let odt := resolved host_vars "openshift_deployment_type" in
  let r := result (check_openshift_deployment_type hostvars host) c in
  (odt ≠ VStr "origin" → odt ≠ VStr "openshift-enterprise" →
   r = Raise (AnsibleModuleError
     "openshift_deployment_type must be defined and one of origin, openshift-enterprise"))
  ∧ (odt = VStr "origin" ∨ odt = VStr "openshift-enterprise" → r = Return odt)
  ∧ (resolved host_vars "openshift_deployment_type" = VNone → fails r).
Proof.
  intros Hh odt r.
  assert (Hr : r = if negb (py_eq odt (SStr "origin")
                            || (py_eq odt (SStr "openshift-enterprise") || false))
                   then Raise (AnsibleModuleError
     "openshift_deployment_type must be defined and one of origin, openshift-enterprise")
                   else Return odt).
  { unfold r, result, check_openshift_deployment_type.
    rewrite (bind_template_var _ _ _ _ _ _ Hh). fold odt.
    unfold py_in, VALID_DEPLOYMENT_TYPES. cbn [fmap list_fmap existsb].
    destruct (negb _); reflexivity. }
  assert (Hbad : odt ≠ VStr "origin" → odt ≠ VStr "openshift-enterprise" →
    r = Raise (AnsibleModuleError
     "openshift_deployment_type must be defined and one of origin, openshift-enterprise")).
  { intros H1 H2. apply py_eq_str_false in H1, H2.
    rewrite Hr, H1, H2. reflexivity. }
  split; [exact Hbad|]. split.
  - intros [H|H]; rewrite Hr; rewrite H; reflexivity.
  - intros Hnone. eexists. apply Hbad; fold odt in Hnone; rewrite Hnone; discriminate.
Qed.

(** ** The python version *)

(** C4: with [ansible_python.version.major] resolved, the rule raises if
    and only if the distro is "Fedora" and the major version is not 3, and
    what it raises then is the failure of the plugin; for every other
    distro it returns, whatever the major version: the message of the
    other branch is built and never raised. *)
Theorem check_python_version_spec
    (hostvars : hostvars_t) (host : string) (host_vars : gmap string value)
    (distro : value) (ansible_python version : gmap string value)
    (major : value) (c : ctx) :
  hostvars !! host = Some host_vars →
  resolved host_vars "ansible_python" = VDict ansible_python →
  ansible_python !! "version" = Some (VDict version) →
  version !! "major" = Some major →
  let r := result (check_python_version hostvars host distro) c in
  (raises r ↔ distro = VStr "Fedora" ∧ py_eq major (SInt 3) = false)
  ∧ (distro = VStr "Fedora" → py_eq major (SInt 3) = false →
     r = Raise (AnsibleModuleError
       "openshift-ansible requires Python 3 for Fedora; For information on enabling Python 3 with Ansible, see https://docs.ansible.com/ansible/python_3_support.html"))
  ∧ (distro ≠ VStr "Fedora" → r = Return tt).
Proof.
  intros Hh Hap Hver Hmaj r.
  assert (Hr : r =
    if py_eq distro (SStr "Fedora") then
      if negb (py_eq major (SInt 3)) then
        Raise (AnsibleModuleError
          ((py_format "openshift-ansible requires Python 3 for {};"
                      [py_str distro]
            +:+ " For information on enabling Python 3 with Ansible,")
           +:+ " see https://docs.ansible.com/ansible/python_3_support.html"))
      else Return tt
    else Return tt).
  { unfold r, result, check_python_version.
    rewrite (bind_template_var _ _ _ _ _ _ Hh), Hap.
    unfold py_getitem at 1 3. rewrite Hver.
    unfold py_getitem, bind, ret, raise. rewrite Hmaj.
    destruct (py_eq distro _), (negb (py_eq major (SInt 3))),
      (negb (py_eq major (SInt 2))); reflexivity. }
  split; [|split].
  - rewrite Hr. split.
    + intros [e He].
      destruct (py_eq distro (SStr "Fedora")) eqn:Hd; [|discriminate].
      apply py_eq_str in Hd.
      destruct (py_eq major (SInt 3)); [discriminate|done].
    + intros [-> ->]. cbn [py_eq scalar_eqb negb]. eexists. reflexivity.
  - intros -> Hm. rewrite Hr, Hm. reflexivity.
  - intros Hd. apply py_eq_str_false in Hd. rewrite Hr, Hd. reflexivity.
Qed.

(** ** The image tag *)

Lemma check_image_tag_format_trivial hostvars host host_vars c odt :
  hostvars !! host = Some host_vars →
  negb (py_truthy (resolved host_vars "openshift_image_tag"))
  || py_eq (resolved host_vars "openshift_image_tag") (SStr "latest") = true →
  result (check_image_tag_format hostvars host odt) c = Return tt.
Proof.
  intros Hh Htag. unfold result, check_image_tag_format.
  rewrite (bind_template_var _ _ _ _ _ _ Hh), Htag. reflexivity.
Qed.

(** C10: for every falsy resolved [openshift_image_tag], so for the empty
    string, false and 0 as for the absent tag, and for the literal
    "latest", the rule passes whatever the deployment type it is given,
    also one that is no key of the table of patterns: the table is not
    read. *)
Theorem check_image_tag_format_falsy
    (hostvars : hostvars_t) (host : string) (host_vars : gmap string value)
    (c : ctx) :
  hostvars !! host = Some host_vars →
  let tag := resolved host_vars "openshift_image_tag" in
  (py_truthy tag = false ∨ tag = VStr "latest" →
   ∀ odt, result (check_image_tag_format hostvars host odt) c = Return tt)
  ∧ (tag ∈ [VNone; VStr ""; VBool false; VInt 0] → py_truthy tag = false).
Proof.
  intros Hh tag. split.
  - intros Htag odt. apply (check_image_tag_format_trivial _ _ _ _ _ Hh).
    fold tag. destruct Htag as [->| ->]; reflexivity.
  - rewrite !elem_of_cons, elem_of_nil.
    intros [->|[->|[->|[->|[]]]]]; reflexivity.
Qed.

(** *** The matcher on tags of the enterprise format *)

Lemma list_ascii_of_string_app (a b : string) :
  list_ascii_of_string (a +:+ b)
  = list_ascii_of_string a ++ list_ascii_of_string b.
Proof.
  induction a as [|ch a IH]; [reflexivity|].
  change (ch :: list_ascii_of_string (a +:+ b)
          = ch :: (list_ascii_of_string a ++ list_ascii_of_string b)).
  by rewrite IH.
Qed.

Lemma star_S step fuel s :
  star step (S fuel) s
  = flat_map (λ s', if (length s' <? length s)%nat
                    then star step fuel s' else [])
             (step s) ++ [s].
Proof. reflexivity. Qed.

Lemma star_self step fuel s : In s (star step fuel s).
Proof.
  destruct fuel; [by left|]. rewrite star_S. apply in_app_iff. right. by left.
Qed.

Lemma star_nil step fuel : star step fuel [] = [[]].
Proof.
  destruct fuel; [reflexivity|]. rewrite star_S.
  induction (step []) as [|s' l IH]; [reflexivity|]. exact IH.
Qed.

(** The fuel [Star] and [Plus] give is enough: more fuel than the input
    is long changes nothing. *)
Lemma star_fuel step n m s :
  (length s ≤ n)%nat → (length s ≤ m)%nat → star step n s = star step m s.
Proof.
  revert m s. induction n as [|n IH]; intros m s Hn Hm.
  - destruct s; [|cbn in Hn; lia]. by rewrite !star_nil.
  - destruct m as [|m].
    + destruct s; [|cbn in Hm; lia]. by rewrite !star_nil.
    + rewrite !star_S. f_equal. apply flat_map_ext. intros s'.
      destruct (Nat.ltb_spec (length s') (length s)); [|reflexivity].
      apply IH; lia.
Qed.

Lemma star_step step fuel s s1 s2 :
  In s1 (step s) → (length s1 < length s)%nat →
  In s2 (star step fuel s1) → In s2 (star step (S fuel) s).
Proof.
  intros H1 Hlt H2. rewrite star_S. apply in_app_iff. left.
  apply in_flat_map. exists s1. split; [done|].
  apply Nat.ltb_lt in Hlt. by rewrite Hlt.
Qed.

Lemma matches_cat total r1 r2 s s1 s2 :
  In s1 (matches total r1 s) → In s2 (matches total r2 s1) →
  In s2 (matches total (Cat r1 r2) s).
Proof. intros H1 H2. cbn. apply in_flat_map. by exists s1. Qed.

Lemma matches_lit total ch s : In s (matches total (Lit ch) (ch :: s)).
Proof. cbn. rewrite Ascii.eqb_refl. by left. Qed.

Lemma matches_digits_star total ds rest fuel :
  forallb is_digit ds = true → (length (ds ++ rest) ≤ fuel)%nat →
  In rest (star (matches total Digit) fuel (ds ++ rest)).
Proof.
  revert fuel. induction ds as [|d ds IH]; intros fuel Hds Hfuel.
  - apply star_self.
  - cbn in Hds. apply andb_prop in Hds as [Hd Hds].
    destruct fuel as [|fuel]; [cbn in Hfuel; lia|].
    apply (star_step _ _ _ (ds ++ rest)).
    + cbn. rewrite Hd. by left.
    + cbn. lia.
    + apply IH; [done|]. cbn in Hfuel. lia.
Qed.

Lemma matches_plus_digits total ds rest :
  ds ≠ [] → forallb is_digit ds = true →
  In rest (matches total (Plus Digit) (ds ++ rest)).
Proof.
  intros Hne Hds. destruct ds as [|d ds]; [done|].
  cbn in Hds. apply andb_prop in Hds as [Hd Hds].
  change (In rest (flat_map (λ s', star (matches total Digit) (length s') s')
                     (if is_digit d then [ds ++ rest] else []))).
  rewrite Hd. cbn [flat_map]. apply in_app_iff. left.
  by apply matches_digits_star.
Qed.

Lemma digits_chars s :
  digits s = true →
  list_ascii_of_string s ≠ [] ∧ forallb is_digit (list_ascii_of_string s) = true.
Proof.
  unfold digits. intros H. apply andb_prop in H as [Hne Hds].
  split; [|done]. by destruct s.
Qed.

(** The group [( \. \d+ )], once. *)
Lemma matches_dot_digits total g rest :
  digits g = true →
  In rest (matches total (Group (cat_all [Lit "."; Plus Digit]))
             (list_ascii_of_string ("." +:+ g) ++ rest)).
Proof.
  intros Hg. apply digits_chars in Hg as [Hne Hds].
  change (In rest (matches total (Cat (Lit ".") (Cat (Plus Digit) Eps))
                     ("."%char :: list_ascii_of_string g ++ rest))).
  apply (matches_cat _ _ _ _ (list_ascii_of_string g ++ rest)).
  - apply matches_lit.
  - apply (matches_cat _ _ _ _ rest); [by apply matches_plus_digits|].
    cbn. by left.
Qed.

Lemma length_dot_group g (tl : list ascii) :
  length (list_ascii_of_string ("." +:+ g) ++ tl)
  = S (length (list_ascii_of_string g) + length tl).
Proof.
  change (list_ascii_of_string ("." +:+ g))
    with ("."%char :: list_ascii_of_string g).
  cbn [app length]. by rewrite length_app.
Qed.

(** The group [( \. \d+ )], repeated. *)
Lemma matches_dotted total groups rest fuel :
  forallb digits groups = true →
  (length (list_ascii_of_string (dotted groups) ++ rest) ≤ fuel)%nat →
  In rest (star (matches total (Group (cat_all [Lit "."; Plus Digit]))) fuel
             (list_ascii_of_string (dotted groups) ++ rest)).
Proof.
  revert fuel. induction groups as [|g groups IH]; intros fuel Hgs Hfuel.
  - apply star_self.
  - cbn in Hgs. apply andb_prop in Hgs as [Hg Hgs].
    change (dotted (g :: groups)) with ("." +:+ g +:+ dotted groups) in *.
    change ("." +:+ g +:+ dotted groups)
      with (("." +:+ g) +:+ dotted groups) in *.
    rewrite list_ascii_of_string_app, <- app_assoc in *.
    rewrite length_dot_group in Hfuel.
    destruct fuel as [|fuel]; [lia|].
    eapply star_step; [by apply matches_dot_digits| |].
    + rewrite length_dot_group. lia.
    + apply IH; [done|lia].
Qed.

Lemma matches_bol s : In s (matches (length s) Bol s).
Proof. cbn [matches]. rewrite Nat.eqb_refl. by left. Qed.

Lemma matches_opt_skip total r s : In s (matches total (Opt r) s).
Proof. cbn [matches]. apply in_app_iff. right. by left. Qed.

Lemma matches_opt_take total r s s' :
  In s' (matches total r s) → In s' (matches total (Opt r) s).
Proof. intros H. cbn [matches]. apply in_app_iff. by left. Qed.

(** The build suffix [( - \d+ ( \. \d+ )* )], when there is one. *)
Lemma matches_build total build :
  match build with
  | None => true
  | Some (b, bs) => digits b && forallb digits bs
  end = true →
  In [] (matches total
           (Opt (Group (cat_all
              [Lit "-"; Plus Digit;
               Star (Group (cat_all [Lit "."; Plus Digit]))])))
           (list_ascii_of_string
              match build with
              | None => ""
              | Some (b, bs) => "-" +:+ b +:+ dotted bs
              end)).
Proof.
  destruct build as [[b bs]|]; intros Hwf; [|apply matches_opt_skip].
  apply andb_prop in Hwf as [Hb Hbs]. apply digits_chars in Hb as [Hne Hb].
  apply matches_opt_take.
  change (In [] (matches total
    (Cat (Lit "-") (Cat (Plus Digit)
       (Cat (Star (Group (cat_all [Lit "."; Plus Digit]))) Eps)))
    ("-"%char :: list_ascii_of_string (b +:+ dotted bs)))).
  rewrite list_ascii_of_string_app.
  eapply matches_cat; [apply matches_lit|].
  eapply matches_cat; [by apply matches_plus_digits|].
  eapply matches_cat; [|by left].
  rewrite <- (app_nil_r (list_ascii_of_string (dotted bs))).
  apply matches_dotted; [done|lia].
Qed.

(** Every well-formed tag of the enterprise format is matched by the
    enterprise pattern, up to its end. *)
Lemma enterprise_tag_matches (t : enterprise_tag) :
  enterprise_tag_wf t = true →
  ∃ m, re_match (re ENTERPRISE_TAG_REGEX) (enterprise_tag_text t) = Some m.
Proof.
  intros Hwf. unfold enterprise_tag_wf in Hwf.
  apply andb_prop in Hwf as [Hwf Hbuild]. apply andb_prop in Hwf as [Hwf Hmore].
  apply andb_prop in Hwf as [Hmaj Hmin].
  apply digits_chars in Hmaj as [Hmaj0 Hmaj], Hmin as [Hmin0 Hmin].
  unfold re_match.
  remember (list_ascii_of_string (enterprise_tag_text t)) as s eqn:Hs.
  enough (In [] (matches (length s) (re ENTERPRISE_TAG_REGEX) s)) as Hin.
  { destruct (matches (length s) (re ENTERPRISE_TAG_REGEX) s) as [|m ms];
      [done|by exists m]. }
  change (re ENTERPRISE_TAG_REGEX) with
    (Group (Cat Bol (Cat (Lit "v") (Cat (Plus Digit) (Cat (Lit ".")
       (Cat (Plus Digit)
       (Cat (Star (Group (cat_all [Lit "."; Plus Digit])))
       (Cat (Opt (Group (cat_all
                    [Lit "-"; Plus Digit;
                     Star (Group (cat_all [Lit "."; Plus Digit]))])))
       (Cat Eol Eps))))))))).
  change (matches (length s) (Group ?r) s) with (matches (length s) r s).
  eapply matches_cat; [apply matches_bol|].
  generalize (length s). intros total. subst s.
  unfold enterprise_tag_text.
  change ("v" +:+ ?x) with (String "v" x).
  cbn [list_ascii_of_string]. rewrite list_ascii_of_string_app.
  change ("." +:+ ?x) with (String "." x).
  cbn [list_ascii_of_string]. rewrite !list_ascii_of_string_app.
  eapply matches_cat; [apply matches_lit|].
  eapply matches_cat; [by apply matches_plus_digits|].
  eapply matches_cat; [apply matches_lit|].
  eapply matches_cat; [by apply matches_plus_digits|].
  eapply matches_cat; [by apply matches_dotted|].
  eapply matches_cat; [by apply matches_build|].
  eapply matches_cat; by left.
Qed.

Lemma image_tag_regex_origin :
  IMAGE_TAG_REGEX !! "origin" = Some ORIGIN_TAG_REGEX.
Proof. reflexivity. Qed.

Lemma image_tag_regex_enterprise :
  IMAGE_TAG_REGEX !! "openshift-enterprise" = Some ENTERPRISE_TAG_REGEX.
Proof. reflexivity. Qed.

(** The rule on a tag that is a string, neither empty nor "latest", under
    a deployment type of the table. *)
Lemma check_image_tag_format_string hostvars host host_vars c tag odt entry :
  hostvars !! host = Some host_vars →
  resolved host_vars "openshift_image_tag" = VStr tag →
  negb (py_truthy (VStr tag)) || py_eq (VStr tag) (SStr "latest") = false →
  IMAGE_TAG_REGEX !! odt = Some entry →
  result (check_image_tag_format hostvars host (VStr odt)) c
  = match re_match (re entry) tag with
    | None => Raise (AnsibleModuleError (py_format (error_msg entry) [tag]))
    | Some _ => Return tt
    end.
Proof.
  intros Hh Htag Hchecked Hodt. unfold result, check_image_tag_format.
  rewrite (bind_template_var _ _ _ _ _ _ Hh), Htag, Hchecked.
  unfold table_getitem, bind, ret, raise. rewrite Hodt. cbn [py_str].
  destruct (re_match (re entry) tag); reflexivity.
Qed.

(** C3, as the code has it: the tag "3.5" fails under openshift-enterprise
    but passes under origin, whose pattern makes the leading [v] optional;
    under openshift-enterprise every tag of the enterprise format passes,
    "v3.5.1-4.5" among them. *)
Theorem check_image_tag_format_spec
    (hostvars : hostvars_t) (host : string) (host_vars : gmap string value)
    (c : ctx) :
  hostvars !! host = Some host_vars →
  let tag := resolved host_vars "openshift_image_tag" in
  let enterprise :=
    result (check_image_tag_format hostvars host
              (VStr "openshift-enterprise")) c in
  let origin :=
    result (check_image_tag_format hostvars host (VStr "origin")) c in
  (tag = VStr "3.5" →
   enterprise = Raise (AnsibleModuleError
"openshift_image_tag must be in the format
v#.#[.#[.#]]. Examples: v1.2, v3.4.1, v3.5.1.3,
v3.5.1.3.4, v1.2-1, v1.2.3-4, v1.2.3-4.5, v1.2.3-4.5.6
You specified openshift_image_tag=3.5")
   ∧ origin = Return tt)
  ∧ (∀ t, enterprise_tag_wf t = true → tag = VStr (enterprise_tag_text t) →
     enterprise = Return tt)
  ∧ (tag = VStr "v3.5.1-4.5" → enterprise = Return tt).
Proof.
  intros Hh tag enterprise origin.
  assert (Hwf : ∀ t, enterprise_tag_wf t = true →
                tag = VStr (enterprise_tag_text t) → enterprise = Return tt).
  { intros t Hwf Htag. unfold enterprise.
    rewrite (check_image_tag_format_string _ _ _ _ _ _ _ Hh Htag eq_refl
               image_tag_regex_enterprise).
    destruct (enterprise_tag_matches t Hwf) as [m ->]. reflexivity. }
  split; [|split; [exact Hwf|]].
  - intros Htag. split.
    + unfold enterprise.
      rewrite (check_image_tag_format_string _ _ _ _ _ _ _ Hh Htag eq_refl
                 image_tag_regex_enterprise).
      reflexivity.
    + unfold origin.
      rewrite (check_image_tag_format_string _ _ _ _ _ _ _ Hh Htag eq_refl
                 image_tag_regex_origin).
      reflexivity.
  - intros Htag.
    apply (Hwf {| et_major := "3"; et_minor := "5"; et_more := ["1"];
                  et_build := Some ("4", ["5"]) |}); [reflexivity|exact Htag].
Qed.

(** ** The network plugins *)

Lemma append_empty_r (s : string) : s +:+ "" = s.
Proof.
  induction s as [|ch s IH]; [reflexivity|].
  change (String ch (s +:+ "") = String ch s). by rewrite IH.
Qed.

Lemma net_plugin_flags_eq hostvars host host_vars plugins c :
  hostvars !! host = Some host_vars →
  ∃ c', net_plugin_flags hostvars host plugins c
        = (Return (toggle host_vars <$> plugins), c').
Proof.
  intros Hh. revert c.
  induction plugins as [|[plugin default_val] plugins IH]; intros c.
  - by eexists.
  - cbn [net_plugin_flags]. rewrite (bind_template_var _ _ _ _ _ _ Hh).
    unfold bind at 1.
    destruct (IH {| last_checked_host := host; last_checked_var := plugin |})
      as [c' ->].
    by eexists.
Qed.

Lemma py_sum_count_true flags : py_sum flags = Z.of_nat (count_true flags).
Proof.
  unfold count_true. induction flags as [|[] flags IH]; [reflexivity| |].
  - cbn [py_sum foldr]. fold (py_sum flags). rewrite IH.
    rewrite filter_cons_True by done. cbn [length Z_of_bool]. lia.
  - cbn [py_sum foldr]. fold (py_sum flags). rewrite IH.
    rewrite filter_cons_False by done. cbn [Z_of_bool]. lia.
Qed.

(** C6: the rule fails if and only if two or more of the six toggles,
    each the boolean of its variable or of its declared default when the
    variable is absent, are true; the message then names the host and
    lists the six pairs of variable and boolean in the order of their
    declaration; with no toggle or one toggle true the rule passes. *)
Theorem network_plugin_check_spec
    (hostvars : hostvars_t) (host : string) (host_vars : gmap string value)
    (c : ctx) :
  hostvars !! host = Some host_vars →
  let flag name default_val := toggle host_vars (name, VBool default_val) in
  let flags :=
    [flag "openshift_use_openshift_sdn" true;
     flag "openshift_use_flannel" false;
     flag "openshift_use_nuage" false;
     flag "openshift_use_contiv" false;
     flag "openshift_use_calico" false;
     flag "openshift_use_kuryr" false] in
  let r := result (network_plugin_check hostvars host) c in
  (fails r ↔ (2 ≤ count_true flags)%nat)
  ∧ ((2 ≤ count_true flags)%nat →
     r = Raise (AnsibleModuleError
       ("Host Checked: " +:+ host +:+ " Only one of must be true. Found: "
        +:+ str_of_pairs
              (zip ["openshift_use_openshift_sdn"; "openshift_use_flannel";
                    "openshift_use_nuage"; "openshift_use_contiv";
                    "openshift_use_calico"; "openshift_use_kuryr"] flags))))
  ∧ ((count_true flags ≤ 1)%nat → r = Return tt).
Proof.
  intros Hh flag flags r.
  set (msg := "Host Checked: " +:+ host +:+ " Only one of must be true. Found: "
        +:+ str_of_pairs
              (zip ["openshift_use_openshift_sdn"; "openshift_use_flannel";
                    "openshift_use_nuage"; "openshift_use_contiv";
                    "openshift_use_calico"; "openshift_use_kuryr"] flags)).
  assert (Hr : r = if (2 <=? count_true flags)%nat
                   then Raise (AnsibleModuleError msg) else Return tt).
  { unfold r, result, network_plugin_check.
    destruct (net_plugin_flags_eq hostvars host host_vars NET_PLUGIN_LIST c Hh)
      as [c' Hflags].
    unfold bind. rewrite Hflags.
    change (toggle host_vars <$> NET_PLUGIN_LIST) with flags.
    unfold py_in. cbn [existsb py_eq scalar_eqb]. rewrite py_sum_count_true.
    destruct (count_true flags) as [|[|n]] eqn:Hn; [reflexivity..|].
    destruct (Z.eqb_spec (Z.of_nat (S (S n))) 0); [lia|].
    destruct (Z.eqb_spec (Z.of_nat (S (S n))) 1); [lia|].
    cbn [orb negb Nat.leb fst]. unfold raise. cbn [fst].
    do 2 f_equal. unfold msg. cbn [py_format].
    by rewrite append_empty_r. }
  rewrite Hr. split; [|split].
  - destruct (2 <=? count_true flags)%nat eqn:Hc.
    + apply Nat.leb_le in Hc. split; [done|]. intros _. by eexists.
    + apply Nat.leb_gt in Hc. split; [by intros [? ?]|lia].
  - intros Hc. apply Nat.leb_le in Hc. by rewrite Hc.
  - intros Hc. destruct (2 <=? count_true flags)%nat eqn:Hc'; [|done].
    apply Nat.leb_le in Hc'. lia.
Qed.

(** ** The nfs storage kinds *)

(** C8: with [openshift_enable_unsupported_configurations] coerced to
    true the rule passes whatever the storage kinds; otherwise it fails if
    and only if one of the seven storage-kind variables resolves to the
    string "nfs", and its message names such a variable. *)
Theorem check_unsupported_nfs_configs_spec
    (hostvars : hostvars_t) (host : string) (host_vars : gmap string value)
    (c : ctx) :
  hostvars !! host = Some host_vars →
  let enable_unsupported :=
    resolved host_vars "openshift_enable_unsupported_configurations" in
  let r := result (check_unsupported_nfs_configs hostvars host) c in
  let is_nfs storage :=
    storage ∈ STORAGE_KIND_TUPLE ∧ resolved host_vars storage = VStr "nfs" in
  let nfs_msg storage :=
    "nfs is an unsupported type for " +:+ storage
    +:+ ". openshift_enable_unsupported_configurations=True mustbe specified to continue with this configuration." in
  length STORAGE_KIND_TUPLE = 7%nat
  ∧ (to_bool enable_unsupported = true → r = Return tt)
  ∧ (to_bool enable_unsupported = false →
     (fails r ↔ ∃ storage, is_nfs storage)
     ∧ (∀ e, r = Raise e →
        ∃ storage, is_nfs storage ∧ e = AnsibleModuleError (nfs_msg storage))
     ∧ ((∀ storage, ¬ is_nfs storage) → r = Return tt)).
Proof.
  intros Hh enable r is_nfs nfs_msg.
  split; [reflexivity|].
  set (f := λ storage,
         if py_eq (resolved host_vars storage) (SStr "nfs")
         then Raise (AnsibleModuleError (nfs_msg storage))
         else Return tt).
  assert (Hr : r = if to_bool enable then Return tt
                   else first_raise f STORAGE_KIND_TUPLE).
  { unfold r, result, check_unsupported_nfs_configs.
    rewrite (bind_template_var _ _ _ _ _ _ Hh). fold enable.
    destruct (to_bool enable); [reflexivity|].
    apply for_each_first_raise. intros storage c' _. unfold result.
    rewrite (bind_template_var _ _ _ _ _ _ Hh). unfold f.
    destruct (py_eq _ _); reflexivity. }
  assert (Hraise : ∀ e, first_raise f STORAGE_KIND_TUPLE = Raise e →
            ∃ storage, is_nfs storage ∧ e = AnsibleModuleError (nfs_msg storage)).
  { intros e He. apply first_raise_raise in He as (storage & Hin & He).
    unfold f in He.
    destruct (py_eq (resolved host_vars storage) (SStr "nfs")) eqn:Hk;
      [|discriminate].
    apply py_eq_str in Hk. injection He as <-. by exists storage. }
  assert (Hreturn : (∀ storage, ¬ is_nfs storage) →
            first_raise f STORAGE_KIND_TUPLE = Return tt).
  { intros Hno. apply first_raise_return. intros storage Hin. unfold f.
    destruct (py_eq (resolved host_vars storage) (SStr "nfs")) eqn:Hk;
      [|reflexivity].
    apply py_eq_str in Hk. by destruct (Hno storage). }
  rewrite Hr. split; [by intros ->|].
  intros ->. split; [|split; [exact Hraise|exact Hreturn]].
  split.
  - intros [msg Hmsg]. destruct (Hraise _ Hmsg) as (storage & Hs & _).
    by exists storage.
  - intros [storage Hs].
    destruct (first_raise f STORAGE_KIND_TUPLE) as [[]|e] eqn:Hf.
    + rewrite first_raise_return in Hf. destruct Hs as [Hin Hk].
      specialize (Hf storage Hin). unfold f in Hf.
      apply py_eq_str in Hk. rewrite Hk in Hf. discriminate.
    + destruct (Hraise _ eq_refl) as (storage' & _ & ->). by eexists.
Qed.

(** ** The session secrets *)

Lemma auth_secret_outcome_return secret :
  auth_secret_outcome secret = Return tt ↔ auth_secret_ok secret.
Proof.
  unfold auth_secret_outcome, auth_secret_ok.
  destruct (py_len secret) as [n|]; [|split; [done|by intros (? & ? & ?)]].
  destruct (Nat.ltb_spec n 32); split; try done.
  - intros (m & [= <-] & Hm). lia.
  - intros _. exists n. split; [done|lia].
Qed.

Lemma encryption_secret_outcome_return secret :
  encryption_secret_outcome secret = Return tt ↔ encryption_secret_ok secret.
Proof.
  clear template str_of_object str_of_exception.
  unfold encryption_secret_outcome, encryption_secret_ok.
  destruct (py_len secret) as [n|]; [|split; [done|by intros (? & ? & ?)]].
  destruct (bool_decide_reflect (n ∈ [16; 24; 32]%nat)) as [Hn|Hn];
    rewrite !elem_of_cons, elem_of_nil in Hn; cbn [negb]; split; try done.
  - intros _. exists n. split; [done|tauto].
  - intros (m & [= <-] & Hm). tauto.
Qed.

Lemma auth_secrets_return secrets :
  first_raise auth_secret_outcome secrets = Return tt
  ↔ Forall auth_secret_ok secrets.
Proof.
  rewrite first_raise_return, Forall_forall.
  by setoid_rewrite auth_secret_outcome_return.
Qed.

Lemma encryption_secrets_return secrets :
  first_raise encryption_secret_outcome secrets = Return tt
  ↔ Forall encryption_secret_ok secrets.
Proof.
  rewrite first_raise_return, Forall_forall.
  by setoid_rewrite encryption_secret_outcome_return.
Qed.

Lemma auth_secrets_raise secrets :
  Forall sized secrets → ¬ Forall auth_secret_ok secrets →
  first_raise auth_secret_outcome secrets
  = Raise (AnsibleModuleError
      "Invalid secret in openshift_master_session_auth_secrets. Secrets must be at least 32 characters in length.").
Proof.
  intros Hsized Hbad.
  destruct (first_raise auth_secret_outcome secrets) as [[]|e] eqn:Hf.
  - by apply auth_secrets_return in Hf.
  - apply first_raise_raise in Hf as (secret & Hin & He).
    rewrite Forall_forall in Hsized. destruct (Hsized _ Hin) as [n Hn].
    unfold auth_secret_outcome in He. rewrite Hn in He.
    destruct (n <? 32)%nat; [by injection He as <-|discriminate].
Qed.

Lemma encryption_secrets_raise secrets :
  Forall sized secrets → ¬ Forall encryption_secret_ok secrets →
  first_raise encryption_secret_outcome secrets
  = Raise (AnsibleModuleError
      "Invalid secret in openshift_master_session_encryption_secrets. Secrets must be 16, 24, or 32 characters in length.").
Proof.
  intros Hsized Hbad.
  destruct (first_raise encryption_secret_outcome secrets) as [[]|e] eqn:Hf.
  - by apply encryption_secrets_return in Hf.
  - apply first_raise_raise in Hf as (secret & Hin & He).
    rewrite Forall_forall in Hsized. destruct (Hsized _ Hin) as [n Hn].
    unfold encryption_secret_outcome in He. rewrite Hn in He.
    destruct (negb _); [by injection He as <-|discriminate].
Qed.

(** The rule, its state put aside. *)
Lemma check_session_auth_secrets_eq hostvars host host_vars c :
  hostvars !! host = Some host_vars →
  let sas := resolved host_vars "openshift_master_session_auth_secrets" in
  let ses := resolved host_vars "openshift_master_session_encryption_secrets" in
  result (check_session_auth_secrets hostvars host) c
  = if is_None sas && is_None ses then Return tt
    else match sas, ses with
         | VList auth, VList enc =>
             if (length auth =? length enc)%nat then
               match first_raise auth_secret_outcome auth with
               | Return _ => first_raise encryption_secret_outcome enc
               | Raise e => Raise e
               end
             else Raise (AnsibleModuleError
               "Expects openshift_master_session_auth_secrets and openshift_master_session_encryption_secrets are equal length lists")
         | _, _ => Raise (AnsibleModuleError
               "Expects openshift_master_session_auth_secrets and openshift_master_session_encryption_secrets are equal length lists")
         end.
Proof.
  intros Hh sas ses. unfold result, check_session_auth_secrets.
  rewrite (bind_template_var _ _ _ _ _ _ Hh).
  rewrite (bind_template_var _ _ _ _ _ _ Hh). fold sas ses.
  destruct (is_None sas && is_None ses); [reflexivity|].
  destruct sas as [a|auth|d]; [reflexivity| |reflexivity].
  destruct ses as [a|enc|d]; [reflexivity| |reflexivity].
  cbn [is_list andb negb]. unfold bind at 1. cbn [len py_len ret bind].
  unfold bind at 1 2. cbn [ret].
  destruct (length auth =? length enc)%nat; [|reflexivity].
  cbn [negb]. unfold bind at 1. cbn [py_iter ret]. unfold bind at 1.
  set (c1 := {| last_checked_host := host;
                last_checked_var := "openshift_master_session_encryption_secrets" |}).
  match goal with
  | |- context [for_each auth ?body ?cc] =>
      assert (Hbody : ∀ x c, x ∈ auth → result (body x) c = auth_secret_outcome x);
      [|destruct (for_each_eq body auth_secret_outcome auth Hbody cc) as [c2 ->]]
  end.
  { intros secret c' _. unfold result, bind, len, auth_secret_outcome.
    destruct (py_len secret) as [n|]; [|reflexivity].
    cbn [ret]. destruct (n <? 32)%nat; reflexivity. }
  destruct (first_raise auth_secret_outcome auth) as [[]|e]; [|reflexivity].
  unfold bind at 1. cbn [py_iter ret].
  apply (for_each_first_raise _ encryption_secret_outcome).
  intros secret c' _. unfold result, bind, len, encryption_secret_outcome.
  destruct (py_len secret) as [n|]; [|reflexivity].
  cbn [ret]. destruct (negb _); reflexivity.
Qed.

(** C7: the rule passes when both secret variables are absent; otherwise
    it passes exactly when both are lists of equal length, every auth
    secret has a length of at least 32 and every encryption secret a
    length of 16, 24 or 32.  When the two are not lists of equal length the
    failure says so, whatever the secrets are; when they are, and the
    secrets have lengths, the failure names the auth list if an auth
    secret is too short, and else the encryption list. *)
Theorem check_session_auth_secrets_spec
    (hostvars : hostvars_t) (host : string) (host_vars : gmap string value)
    (c : ctx) :
  hostvars !! host = Some host_vars →
  let sas := resolved host_vars "openshift_master_session_auth_secrets" in
  let ses := resolved host_vars "openshift_master_session_encryption_secrets" in
  let r := result (check_session_auth_secrets hostvars host) c in
  let equal_length_lists auth enc :=
    sas = VList auth ∧ ses = VList enc ∧ length auth = length enc in
  (sas = VNone → ses = VNone → r = Return tt)
  ∧ (r = Return tt
     ↔ (sas = VNone ∧ ses = VNone)
       ∨ ∃ auth enc, equal_length_lists auth enc
                     ∧ Forall auth_secret_ok auth
                     ∧ Forall encryption_secret_ok enc)
  ∧ (¬ (sas = VNone ∧ ses = VNone) →
     (¬ ∃ auth enc, equal_length_lists auth enc) →
     r = Raise (AnsibleModuleError
       "Expects openshift_master_session_auth_secrets and openshift_master_session_encryption_secrets are equal length lists"))
  ∧ (∀ auth enc, equal_length_lists auth enc →
     Forall sized auth → ¬ Forall auth_secret_ok auth →
     r = Raise (AnsibleModuleError
       "Invalid secret in openshift_master_session_auth_secrets. Secrets must be at least 32 characters in length."))
  ∧ (∀ auth enc, equal_length_lists auth enc →
     Forall auth_secret_ok auth →
     Forall sized enc → ¬ Forall encryption_secret_ok enc →
     r = Raise (AnsibleModuleError
       "Invalid secret in openshift_master_session_encryption_secrets. Secrets must be 16, 24, or 32 characters in length.")).
Proof.
  intros Hh sas ses r equal_length_lists.
  pose proof (check_session_auth_secrets_eq hostvars host host_vars c Hh) as Hr.
  cbv zeta in Hr. fold sas ses r in Hr.
  assert (Hnone : is_None sas && is_None ses = true ↔ sas = VNone ∧ ses = VNone).
  { destruct sas as [[]| |], ses as [[]| |]; cbn; split;
      (done || by intros [? ?]). }
  assert (Hlists : ∀ auth enc, equal_length_lists auth enc →
            r = match first_raise auth_secret_outcome auth with
                | Return _ => first_raise encryption_secret_outcome enc
                | Raise e => Raise e
                end).
  { intros auth enc (Hsas & Hses & Hlen). rewrite Hr, Hsas, Hses.
    apply Nat.eqb_eq in Hlen. by rewrite Hlen. }
  split; [|split; [|split; [|split]]].
  - intros Hsas Hses. rewrite Hr, Hsas, Hses. reflexivity.
  - split.
    + intros Hret. destruct (is_None sas && is_None ses) eqn:Hn.
      { left. by apply Hnone. }
      right. rewrite Hr in Hret.
      destruct sas as [a|auth|d]; [discriminate| |discriminate].
      destruct ses as [a|enc|d]; [discriminate| |discriminate].
      destruct (Nat.eqb_spec (length auth) (length enc)) as [Hlen|];
        [|discriminate].
      exists auth, enc. split; [done|].
      destruct (first_raise auth_secret_outcome auth) as [[]|e] eqn:Hauth;
        [|discriminate].
      split; [by apply auth_secrets_return|by apply encryption_secrets_return].
    + intros [Hn|(auth & enc & Heq & Hauth & Henc)].
      * apply Hnone in Hn. by rewrite Hr, Hn.
      * rewrite (Hlists _ _ Heq).
        apply auth_secrets_return in Hauth. rewrite Hauth.
        by apply encryption_secrets_return.
  - intros Hn Hne. rewrite Hr.
    destruct (is_None sas && is_None ses) eqn:Hn'; [destruct Hn; by apply Hnone|].
    destruct sas as [a|auth|d]; [reflexivity| |reflexivity].
    destruct ses as [a|enc|d]; [reflexivity| |reflexivity].
    destruct (Nat.eqb_spec (length auth) (length enc)) as [Hlen|];
      [|reflexivity].
    destruct Hne. by exists auth, enc.
  - intros auth enc Heq Hsized Hbad. rewrite (Hlists _ _ Heq).
    by rewrite auth_secrets_raise.
  - intros auth enc Heq Hauth Hsized Hbad. rewrite (Hlists _ _ Heq).
    apply auth_secrets_return in Hauth. rewrite Hauth.
    by apply encryption_secrets_raise.
Qed.

(** ** The htpasswd providers *)

Lemma provider_body_result idp c :
  result
    (kind <- py_getitem idp "kind" ;;
     if py_eq kind (SStr "HTPasswdPasswordIdentityProvider") then
       for_each ["file"; "fileName"; "file_name"; "filename"] (λ old_key,
         present <- py_contains idp old_key ;;
         if present && negb (is_None idp) then
           raise (AnsibleModuleError (py_format
             "openshift_master_identity_providers contains a provider of kind==HTPasswdPasswordIdentityProvider and {} is set.  Please migrate your htpasswd files to /etc/origin/master/htpasswd and update your existing master configs, and remove the {} keybefore proceeding."
             [old_key; old_key]))
         else ret tt)
     else ret tt) c
  = provider_outcome idp.
Proof.
  destruct idp as [a|l|d]; [reflexivity..|].
  unfold provider_outcome, result, py_getitem.
  destruct (d !! "kind") as [kind|]; [|reflexivity].
  unfold bind at 1. cbn [ret].
  destruct (py_eq kind _); [|reflexivity].
  apply (for_each_first_raise _ _ legacy_keys).
  intros old_key c' _. unfold result, bind, py_contains, ret.
  rewrite andb_true_r. destruct (bool_decide _); reflexivity.
Qed.

Lemma provider_outcome_raise idp e :
  provider_outcome idp = Raise e → provider_record idp →
  ∃ k, legacy_htpasswd_provider k idp ∧ e = AnsibleModuleError (htpasswd_msg k).
Proof.
  intros He (d & kind & -> & Hkind). unfold provider_outcome in He.
  rewrite Hkind in He.
  destruct (py_eq kind _) eqn:Hk; [|discriminate]. apply py_eq_str in Hk.
  apply first_raise_raise in He as (k & Hin & He).
  destruct (bool_decide_reflect (is_Some (d !! k))) as [Hsome|];
    [|discriminate].
  injection He as <-. exists k. split; [|done]. by exists d, kind.
Qed.

Lemma provider_outcome_legacy idp k :
  legacy_htpasswd_provider k idp → provider_outcome idp ≠ Return tt.
Proof.
  intros (d & kind & -> & Hkind & -> & Hin & Hsome) Hret.
  unfold provider_outcome in Hret. rewrite Hkind in Hret.
  cbn [py_eq scalar_eqb] in Hret. rewrite String.eqb_refl in Hret.
  rewrite first_raise_return in Hret. specialize (Hret k Hin).
  by rewrite bool_decide_eq_true_2 in Hret.
Qed.

Lemma check_htpasswd_provider_falsy hostvars host host_vars c :
  hostvars !! host = Some host_vars →
  py_truthy (resolved host_vars "openshift_master_identity_providers") = false →
  result (check_htpasswd_provider hostvars host) c = Return tt.
Proof.
  intros Hh Hidps. unfold result, check_htpasswd_provider.
  rewrite (bind_template_var _ _ _ _ _ _ Hh), Hidps. reflexivity.
Qed.

Lemma check_htpasswd_provider_list hostvars host host_vars c idp providers :
  hostvars !! host = Some host_vars →
  resolved host_vars "openshift_master_identity_providers"
  = VList (idp :: providers) →
  result (check_htpasswd_provider hostvars host) c
  = if to_bool (resolved host_vars "openshift_master_manage_htpasswd")
    then Return tt
    else first_raise provider_outcome (idp :: providers).
Proof.
  intros Hh Hidps. unfold result, check_htpasswd_provider.
  rewrite (bind_template_var _ _ _ _ _ _ Hh), Hidps. cbn [py_truthy negb].
  rewrite (bind_template_var _ _ _ _ _ _ Hh).
  destruct (to_bool _); [reflexivity|].
  unfold bind at 1. cbn [py_iter ret].
  apply for_each_first_raise. intros idp' c' _.
  apply provider_body_result.
Qed.

(** C5: where the identity providers are falsy (absent, empty) or a list
    of provider records, the rule fails if and only if the list is not empty,
    [openshift_master_manage_htpasswd] coerces to false, and some
    provider of kind "HTPasswdPasswordIdentityProvider" holds one of the
    four legacy keys; the failure names such a key; otherwise the rule
    passes. *)
Theorem check_htpasswd_provider_spec
    (hostvars : hostvars_t) (host : string) (host_vars : gmap string value)
    (c : ctx) :
  hostvars !! host = Some host_vars →
  let idps := resolved host_vars "openshift_master_identity_providers" in
  let manage_pass := resolved host_vars "openshift_master_manage_htpasswd" in
  let r := result (check_htpasswd_provider hostvars host) c in
  let offending k :=
    ∃ providers idp, idps = VList providers ∧ providers ≠ []
                     ∧ to_bool manage_pass = false
                     ∧ idp ∈ providers ∧ legacy_htpasswd_provider k idp in
  (py_truthy idps = false
   ∨ ∃ providers, idps = VList providers ∧ Forall provider_record providers) →
  (fails r ↔ ∃ k, offending k)
  ∧ (∀ e, r = Raise e →
     ∃ k, offending k ∧ e = AnsibleModuleError (htpasswd_msg k))
  ∧ ((¬ ∃ k, offending k) → r = Return tt).
Proof.
  intros Hh idps manage_pass r offending Hwf.
  assert (Hraise : ∀ e, r = Raise e →
            ∃ k, offending k ∧ e = AnsibleModuleError (htpasswd_msg k)).
  { intros e He. destruct Hwf as [Hnone|(providers & Hidps & Hrec)].
    - unfold r in He.
      by rewrite (check_htpasswd_provider_falsy _ _ _ _ Hh) in He.
    - destruct providers as [|idp providers].
      { unfold r in He.
        rewrite (check_htpasswd_provider_falsy _ _ _ _ Hh) in He; [done|].
        fold idps. by rewrite Hidps. }
      unfold r in He.
      rewrite (check_htpasswd_provider_list _ _ _ _ _ _ Hh Hidps) in He.
      fold manage_pass in He.
      destruct (to_bool manage_pass) eqn:Hm; [done|].
      apply first_raise_raise in He as (idp' & Hin & He).
      rewrite Forall_forall in Hrec.
      destruct (provider_outcome_raise _ _ He (Hrec _ Hin)) as (k & Hk & ->).
      exists k. split; [|done]. by exists (idp :: providers), idp'. }
  assert (Hreturn : r = Return tt → ¬ ∃ k, offending k).
  { intros Hret (k & providers & idp & Hidps & Hne & Hm & Hin & Hk).
    destruct providers as [|idp0 providers]; [done|].
    unfold r in Hret.
    rewrite (check_htpasswd_provider_list _ _ _ _ _ _ Hh Hidps) in Hret.
    fold manage_pass in Hret. rewrite Hm in Hret.
    rewrite first_raise_return in Hret.
    by apply (provider_outcome_legacy idp k Hk), Hret. }
  split; [|split; [exact Hraise|]].
  - split.
    + intros [msg Hmsg]. destruct (Hraise _ Hmsg) as (k & Hk & _). by exists k.
    + intros Hoff. destruct r as [[]|e] eqn:Hr.
      * by destruct Hreturn.
      * destruct (Hraise e eq_refl) as (k & _ & ->). by eexists.
  - intros Hno. destruct r as [[]|e] eqn:Hr; [done|].
    destruct (Hraise e eq_refl) as (k & Hk & _). destruct Hno. by exists k.
Qed.

(** ** The runner *)

Lemma run_checks_absent_host hostvars host c :
  hostvars !! host = None →
  result (run_checks hostvars host) c = Raise (KeyError (VStr host)).
Proof.
  intros Hh. unfold run_checks.
  pose proof (template_var_absent_host hostvars host "ansible_distribution" c Hh)
    as Hr.
  unfold result in Hr.
  destruct (template_var hostvars host "ansible_distribution" c)
    as [o c'] eqn:E.
  cbn in Hr. subst o. exact (result_bind_raise _ _ _ _ _ E).
Qed.

(** C1: when [check_hosts] is a list that is not empty and every host of
    it passes all the rules, [run] returns the result record with
    [changed] false, [failed] false and the message "Sanity Checks
    passed". *)
Theorem run_passes
    (base_result : gmap string value) (check_hosts : list string)
    (task_vars : task_vars_t) (hostvars : hostvars_t) (c : ctx) :
  check_hosts ≠ [] →
  tv_hostvars task_vars = Some hostvars →
  Forall (λ host, ∀ c', result (run_checks hostvars host) c' = Return tt)
         check_hosts →
  ∃ res,
    result (run base_result (Some check_hosts) (Some task_vars)) c = Return res
    ∧ res !! "changed" = Some (VBool false)
    ∧ res !! "failed" = Some (VBool false)
    ∧ res !! "msg" = Some (VStr "Sanity Checks passed").
Proof.
  intros Hne Htv Hpass.
  exists (<["msg" := VStr "Sanity Checks passed"]>
            (<["failed" := VBool false]>
               (<["changed" := VBool false]> base_result))).
  split; [|by rewrite !lookup_insert].
  unfold result, run.
  change (default _ (Some task_vars)) with task_vars. rewrite Htv.
  destruct check_hosts as [|host hosts]; [done|].
  assert (Hhv : hostvars ≠ ∅).
  { intros ->. apply Forall_inv in Hpass. specialize (Hpass c).
    rewrite run_checks_absent_host in Hpass by apply lookup_empty. done. }
  unfold bind at 1. cbn [set_last].
  rewrite bool_decide_eq_false_2 by done.
  unfold bind at 1.
  match goal with
  | |- context [for_each _ ?body ?cc] =>
      destruct (for_each_eq body (λ _, Return tt) (host :: hosts)) with (c := cc)
        as [c' Hloop]
  end.
  { intros h c0 Hin. rewrite Forall_forall in Hpass.
    specialize (Hpass h Hin c0). unfold result, try_except in *.
    destruct (run_checks hostvars h c0) as [[[]|e] c1]; [done|discriminate]. }
  rewrite Hloop.
  assert (Hall : first_raise (λ _ : string, Return tt) (host :: hosts) = Return tt).
  { by apply first_raise_return. }
  rewrite Hall. reflexivity.
Qed.

(** * Further properties *)

(** ** The state of the diagnostics *)

Lemma oblivious_bind {A B} (m : M A) (k : A → M B) :
  oblivious m → oblivious (bind m k).
Proof. intros Hm c c'. unfold bind. by rewrite (Hm c c'). Qed.

Lemma oblivious_stateless {A} (m : M A) : oblivious m → stateless m.
Proof. intros Hm c c'. unfold result. by rewrite (Hm c c'). Qed.

Lemma template_var_oblivious hostvars host varname :
  oblivious (template_var hostvars host varname).
Proof. intros c c'. reflexivity. Qed.

Lemma stateless_ret {A} (a : A) : stateless (ret a).
Proof. intros c c'. reflexivity. Qed.

Lemma stateless_raise {A} (e : exn) : stateless (@raise A e).
Proof. intros c c'. reflexivity. Qed.

Lemma stateless_bind {A B} (m : M A) (k : A → M B) :
  stateless m → (∀ a, stateless (k a)) → stateless (bind m k).
Proof.
  intros Hm Hk c c'. specialize (Hm c c'). unfold result, bind in *.
  destruct (m c) as [[a|e] c1], (m c') as [[a'|e'] c1']; cbn in Hm;
    try discriminate.
  - injection Hm as <-. exact (Hk a c1 c1').
  - by injection Hm as <-.
Qed.

Lemma stateless_for_each {A} (xs : list A) (body : A → M unit) :
  (∀ x, stateless (body x)) → stateless (for_each xs body).
Proof.
  intros Hbody. induction xs as [|x xs IH]; [apply stateless_ret|].
  apply stateless_bind; [apply Hbody|by intros _].
Qed.

Lemma keeps_host_ret host {A} (a : A) : keeps_host host (ret a).
Proof. by intros c Hc. Qed.

Lemma keeps_host_raise host {A} (e : exn) : keeps_host host (@raise A e).
Proof. by intros c Hc. Qed.

Lemma keeps_host_bind host {A B} (m : M A) (k : A → M B) :
  keeps_host host m → (∀ a, keeps_host host (k a)) →
  keeps_host host (bind m k).
Proof.
  intros Hm Hk c Hc. specialize (Hm c Hc). unfold bind.
  destruct (m c) as [[a|e] c1]; [by apply Hk|exact Hm].
Qed.

Lemma keeps_host_for_each host {A} (xs : list A) (body : A → M unit) :
  (∀ x, keeps_host host (body x)) → keeps_host host (for_each xs body).
Proof.
  intros Hbody. induction xs as [|x xs IH]; [apply keeps_host_ret|].
  apply keeps_host_bind; [apply Hbody|by intros _].
Qed.

Lemma names_host_keeps host {A} (m : M A) :
  names_host host m → keeps_host host m.
Proof. intros Hm c _. apply Hm. Qed.

Lemma names_host_bind host {A B} (m : M A) (k : A → M B) :
  names_host host m → (∀ a, keeps_host host (k a)) →
  names_host host (bind m k).
Proof.
  intros Hm Hk c. specialize (Hm c). unfold bind.
  destruct (m c) as [[a|e] c1]; [by apply Hk|exact Hm].
Qed.

Lemma template_var_names_host hostvars host varname :
  names_host host (template_var hostvars host varname).
Proof.
  intros c. unfold template_var, bind, set_last.
  destruct (hostvars !! host) as [host_vars|]; [|reflexivity].
  destruct (host_vars !! varname) as [[[]| |]|]; reflexivity.
Qed.

(** [template_var] leaves the host and the variable it was asked for as
    the last checked ones, whatever state it starts in and whether it
    returns or raises; it raises, with [KeyError], exactly when the host has
    no variables at all, and else returns what the host's variables
    resolve to. *)
Theorem template_var_effect
    (hostvars : hostvars_t) (host varname : string) (c : ctx) :
  (template_var hostvars host varname c).2
  = {| last_checked_host := host; last_checked_var := varname |}
  ∧ (hostvars !! host = None →
     result (template_var hostvars host varname) c
     = Raise (KeyError (VStr host)))
  ∧ (∀ host_vars, hostvars !! host = Some host_vars →
     result (template_var hostvars host varname) c
     = Return (resolved host_vars varname)).
Proof.
  split; [|split].
  - unfold template_var, bind, set_last.
    destruct (hostvars !! host) as [host_vars|]; [|reflexivity].
    destruct (host_vars !! varname) as [[[]| |]|]; reflexivity.
  - apply template_var_absent_host.
  - intros host_vars Hh. unfold result.
    by rewrite (template_var_eq _ _ _ _ _ Hh).
Qed.

Ltac keeps_host_steps :=
  repeat first
    [ apply keeps_host_ret
    | apply keeps_host_raise
    | apply names_host_keeps, template_var_names_host
    | apply keeps_host_for_each; intros ?
    | progress unfold len, py_iter, py_getitem, py_contains, table_getitem
    | match goal with
      | |- keeps_host _ (if ?b then _ else _) => destruct b
      | |- keeps_host _ (match ?x with _ => _ end) => destruct x
      end
    | apply keeps_host_bind; [|intros ?] ].

Lemma net_plugin_flags_keeps_host hostvars host plugins :
  keeps_host host (net_plugin_flags hostvars host plugins).
Proof.
  induction plugins as [|[plugin default_val] plugins IH];
    [apply keeps_host_ret|].
  cbn [net_plugin_flags]. apply keeps_host_bind.
  - apply names_host_keeps, template_var_names_host.
  - intros res_temp. apply keeps_host_bind; [exact IH|].
    intros flags. apply keeps_host_ret.
Qed.

Lemma check_openshift_deployment_type_keeps_host hostvars host :
  keeps_host host (check_openshift_deployment_type hostvars host).
Proof. unfold check_openshift_deployment_type. keeps_host_steps. Qed.

Lemma check_python_version_keeps_host hostvars host distro :
  keeps_host host (check_python_version hostvars host distro).
Proof. unfold check_python_version. keeps_host_steps. Qed.

Lemma check_image_tag_format_keeps_host hostvars host odt :
  keeps_host host (check_image_tag_format hostvars host odt).
Proof. unfold check_image_tag_format. keeps_host_steps. Qed.

Lemma network_plugin_check_keeps_host hostvars host :
  keeps_host host (network_plugin_check hostvars host).
Proof.
  unfold network_plugin_check. apply keeps_host_bind.
  - apply net_plugin_flags_keeps_host.
  - intros res. keeps_host_steps.
Qed.

Lemma check_hostname_vars_keeps_host hostvars host :
  keeps_host host (check_hostname_vars hostvars host).
Proof. unfold check_hostname_vars. keeps_host_steps. Qed.

Lemma check_session_auth_secrets_keeps_host hostvars host :
  keeps_host host (check_session_auth_secrets hostvars host).
Proof. unfold check_session_auth_secrets. keeps_host_steps. Qed.

Lemma check_unsupported_nfs_configs_keeps_host hostvars host :
  keeps_host host (check_unsupported_nfs_configs hostvars host).
Proof. unfold check_unsupported_nfs_configs. keeps_host_steps. Qed.

Lemma check_htpasswd_provider_keeps_host hostvars host :
  keeps_host host (check_htpasswd_provider hostvars host).
Proof. unfold check_htpasswd_provider. keeps_host_steps. Qed.

Lemma run_checks_names_host (hostvars : hostvars_t) (host : string) :
  names_host host (run_checks hostvars host).
Proof.
  unfold run_checks.
  apply names_host_bind; [apply template_var_names_host|]. intros distro.
  apply keeps_host_bind;
    [apply check_openshift_deployment_type_keeps_host|]. intros odt.
  apply keeps_host_bind; [apply check_python_version_keeps_host|]. intros _.
  apply keeps_host_bind; [apply check_image_tag_format_keeps_host|]. intros _.
  apply keeps_host_bind; [apply network_plugin_check_keeps_host|]. intros _.
  apply keeps_host_bind; [apply check_hostname_vars_keeps_host|]. intros _.
  apply keeps_host_bind;
    [apply check_session_auth_secrets_keeps_host|]. intros _.
  apply keeps_host_bind;
    [apply check_unsupported_nfs_configs_keeps_host|]. intros _.
  apply check_htpasswd_provider_keeps_host.
Qed.

(** Whatever [run_checks] does on a host, return or raise in any of its
    rules, and whatever state it starts in, it leaves that host as the last
    checked host: the diagnostic of [run] names the host whose check
    raised. *)
Theorem run_checks_last_checked_host
    (hostvars : hostvars_t) (host : string) (c : ctx) :
  last_checked_host (run_checks hostvars host c).2 = host.
Proof. apply run_checks_names_host. Qed.

(** ** The rules one after the other *)

Lemma check_openshift_deployment_type_oblivious hostvars host :
  oblivious (check_openshift_deployment_type hostvars host).
Proof. apply oblivious_bind, template_var_oblivious. Qed.

Lemma check_python_version_oblivious hostvars host distro :
  oblivious (check_python_version hostvars host distro).
Proof. apply oblivious_bind, template_var_oblivious. Qed.

Lemma check_image_tag_format_oblivious hostvars host odt :
  oblivious (check_image_tag_format hostvars host odt).
Proof. apply oblivious_bind, template_var_oblivious. Qed.

Lemma network_plugin_check_oblivious hostvars host :
  oblivious (network_plugin_check hostvars host).
Proof. apply oblivious_bind, oblivious_bind, template_var_oblivious. Qed.

Lemma check_hostname_vars_oblivious hostvars host :
  oblivious (check_hostname_vars hostvars host).
Proof. apply oblivious_bind, oblivious_bind, template_var_oblivious. Qed.

Lemma check_session_auth_secrets_oblivious hostvars host :
  oblivious (check_session_auth_secrets hostvars host).
Proof. apply oblivious_bind, template_var_oblivious. Qed.

Lemma check_unsupported_nfs_configs_oblivious hostvars host :
  oblivious (check_unsupported_nfs_configs hostvars host).
Proof. apply oblivious_bind, template_var_oblivious. Qed.

Lemma check_htpasswd_provider_oblivious hostvars host :
  oblivious (check_htpasswd_provider hostvars host).
Proof. apply oblivious_bind, template_var_oblivious. Qed.

Lemma run_checks_oblivious hostvars host :
  oblivious (run_checks hostvars host).
Proof. apply oblivious_bind, template_var_oblivious. Qed.

Lemma result_bind_oblivious {A B} (m : M A) (k : A → M B) c c0 :
  oblivious m →
  result (bind m k) c
  = match m c0 with
    | (Return a, c') => result (k a) c'
    | (Raise e, _) => Raise e
    end.
Proof.
  intros Hm. unfold result, bind. rewrite (Hm c c0).
  by destruct (m c0) as [[a|e] c'].
Qed.

(** [run_checks] is its rules in their order, and stops at the first that
    raises: its outcome is the first exception among the lookup of the
    distro, the deployment-type rule, and then the seven other rules, each
    taken on its own; it returns exactly when all of them return. *)
Theorem run_checks_first_failure
    (hostvars : hostvars_t) (host : string) (c : ctx) :
  result (run_checks hostvars host) c
  = match result (template_var hostvars host "ansible_distribution") c with
    | Raise e => Raise e
    | Return distro =>
        match result (check_openshift_deployment_type hostvars host) c with
        | Raise e => Raise e
        | Return odt =>
            first_raise (λ rule : M unit, result rule c)
              [check_python_version hostvars host distro;
               check_image_tag_format hostvars host odt;
               network_plugin_check hostvars host;
               check_hostname_vars hostvars host;
               check_session_auth_secrets hostvars host;
               check_unsupported_nfs_configs hostvars host;
               check_htpasswd_provider hostvars host]
        end
    end.
Proof.
  unfold run_checks.
  rewrite (result_bind_oblivious _ _ c c (template_var_oblivious _ _ _)).
  unfold result at 2.
  destruct (template_var hostvars host "ansible_distribution" c)
    as [[distro|e] c0]; [|reflexivity]. cbn [fst].
  rewrite (result_bind_oblivious _ _ c0 c
             (check_openshift_deployment_type_oblivious _ _)).
  unfold result at 2.
  destruct (check_openshift_deployment_type hostvars host c)
    as [[odt|e] c1]; [|reflexivity]. cbn [fst first_raise].
  rewrite (result_bind_oblivious _ _ c1 c
             (check_python_version_oblivious _ _ _)).
  unfold result at 2.
  destruct (check_python_version hostvars host distro c)
    as [[[]|e] c2]; [|reflexivity]. cbn [fst].
  rewrite (result_bind_oblivious _ _ c2 c
             (check_image_tag_format_oblivious _ _ _)).
  unfold result at 2.
  destruct (check_image_tag_format hostvars host odt c)
    as [[[]|e] c3]; [|reflexivity]. cbn [fst].
  rewrite (result_bind_oblivious _ _ c3 c
             (network_plugin_check_oblivious _ _)).
  unfold result at 2.
  destruct (network_plugin_check hostvars host c)
    as [[[]|e] c4]; [|reflexivity]. cbn [fst].
  rewrite (result_bind_oblivious _ _ c4 c
             (check_hostname_vars_oblivious _ _)).
  unfold result at 2.
  destruct (check_hostname_vars hostvars host c)
    as [[[]|e] c5]; [|reflexivity]. cbn [fst].
  rewrite (result_bind_oblivious _ _ c5 c
             (check_session_auth_secrets_oblivious _ _)).
  unfold result at 2.
  destruct (check_session_auth_secrets hostvars host c)
    as [[[]|e] c6]; [|reflexivity]. cbn [fst].
  rewrite (result_bind_oblivious _ _ c6 c
             (check_unsupported_nfs_configs_oblivious _ _)).
  unfold result at 2.
  destruct (check_unsupported_nfs_configs hostvars host c)
    as [[[]|e] c7]; [|reflexivity]. cbn [fst].
  unfold result. rewrite (check_htpasswd_provider_oblivious _ _ c7 c).
  by destruct (check_htpasswd_provider hostvars host c) as [[[]|e] c8].
Qed.

(** ** The runner: its errors *)

(** Without hosts to check, [check_hosts] not given or empty, [run] raises
    "check_hosts is required", whatever the variables of the task are, the
    missing ones included: the hosts are looked at first. *)
Theorem run_requires_check_hosts
    (base_result : gmap string value) (task_vars : option task_vars_t)
    (c : ctx) :
  result (run base_result None task_vars) c
  = Raise (AnsibleModuleError "check_hosts is required")
  ∧ result (run base_result (Some []) task_vars) c
    = Raise (AnsibleModuleError "check_hosts is required").
Proof. split; reflexivity. Qed.

(** With hosts to check but no [hostvars], the task variables or their
    [hostvars] entry missing or the entry empty, [run] raises the error
    that carries that [hostvars] object, and checks no host. *)
Theorem run_requires_hostvars
    (base_result : gmap string value) (check_hosts : list string)
    (task_vars : option task_vars_t) (c : ctx) :
  check_hosts ≠ [] →
  let hostvars := tv_hostvars (default {| tv_hostvars := None |} task_vars) in
  hostvars = None ∨ hostvars = Some ∅ →
  result (run base_result (Some check_hosts) task_vars) c
  = Raise (AnsibleModuleError_hostvars hostvars).
Proof.
  intros Hne hostvars Hhv. unfold result, run. fold hostvars.
  destruct check_hosts as [|host hosts]; [done|].
  destruct Hhv as [-> | ->]; reflexivity.
Qed.

(** ** The runner: the first failing host *)

Lemma first_raise_app_raise {A} (f : A → outcome unit) pre x post e :
  Forall (λ y, f y = Return tt) pre → f x = Raise e →
  first_raise f (pre ++ x :: post) = Raise e.
Proof.
  intros Hpre Hx. induction Hpre as [|y pre Hy _ IH]; cbn.
  - by rewrite Hx.
  - by rewrite Hy.
Qed.

(** The body of the loop of [run]: one host, its exception wrapped. *)
Lemma run_body_oblivious hostvars host (h : exn → M unit) :
  oblivious (try_except (run_checks hostvars host) h).
Proof.
  intros c c'. unfold try_except.
  by rewrite (run_checks_oblivious hostvars host c c').
Qed.

Lemma run_loop hostvars (h : exn → M unit) hosts c c0 :
  result (for_each hosts (λ host, try_except (run_checks hostvars host) h)) c
  = first_raise
      (λ host, result (try_except (run_checks hostvars host) h) c0) hosts.
Proof.
  apply for_each_first_raise. intros host c1 _.
  apply oblivious_stateless, run_body_oblivious.
Qed.

Lemma run_eq base_result host hosts task_vars hostvars c c0 :
  tv_hostvars task_vars = Some hostvars → hostvars ≠ ∅ →
  result (run base_result (Some (host :: hosts)) (Some task_vars)) c
  = match
      first_raise
        (λ host,
           result
             (try_except (run_checks hostvars host) (λ uncaught_e,
                c <- get_ctx ;;
                raise (AnsibleModuleError
                  (py_format "last_checked_host: {}, last_checked_var: {};"
                             [last_checked_host c; last_checked_var c]
                   +:+ py_str_exn uncaught_e)))) c0)
        (host :: hosts)
    with
    | Return _ =>
        Return (<["msg" := VStr "Sanity Checks passed"]>
                  (<["failed" := VBool false]>
                     (<["changed" := VBool false]> base_result)))
    | Raise e => Raise e
    end.
Proof.
  intros Htv Hhv. unfold result at 1. unfold run.
  change (default _ (Some task_vars)) with task_vars. rewrite Htv.
  unfold bind at 1. cbn [set_last].
  rewrite bool_decide_eq_false_2 by done.
  match goal with
  | |- context [bind ?m ?k ?cc] =>
      change ((bind m k cc).1) with (result (bind m k) cc);
      pose proof (run_loop hostvars
        (λ uncaught_e,
           c <- get_ctx ;;
           raise (AnsibleModuleError
             (py_format "last_checked_host: {}, last_checked_var: {};"
                        [last_checked_host c; last_checked_var c]
              +:+ py_str_exn uncaught_e)))
        (host :: hosts) cc c0) as Hloop
  end.
  rewrite <- Hloop. unfold result, bind.
  match goal with
  | |- context [for_each ?xs ?body ?cc] =>
      by destruct (for_each xs body cc) as [[[]|e] c']
  end.
Qed.

(** [run] stops at the first host whose checks raise: when the hosts before
    it pass, its exception, whatever its kind, is raised again as the error
    of the plugin, the message giving that host, the variable looked up
    last, and the text of the exception.  The hosts after it are not
    looked at. *)
Theorem run_wraps_first_failure
    (base_result : gmap string value) (before after : list string)
    (host : string) (task_vars : task_vars_t) (hostvars : hostvars_t)
    (e : exn) (c : ctx) :
  tv_hostvars task_vars = Some hostvars →
  hostvars ≠ ∅ →
  Forall (λ h, result (run_checks hostvars h) c = Return tt) before →
  result (run_checks hostvars host) c = Raise e →
  result (run base_result (Some (before ++ host :: after)) (Some task_vars)) c
  = Raise (AnsibleModuleError
      (("last_checked_host: " +:+ host +:+ ", last_checked_var: "
        +:+ last_checked_var (run_checks hostvars host c).2 +:+ ";")
       +:+ py_str_exn e)).
Proof.
  intros Htv Hhv Hbefore Hhost.
  assert (Hlist : ∃ h hs, before ++ host :: after = h :: hs).
  { destruct before; by eexists _, _. }
  destruct Hlist as (h & hs & Hlist). rewrite Hlist.
  rewrite (run_eq _ _ _ _ _ _ c Htv Hhv). rewrite <- Hlist.
  erewrite first_raise_app_raise; [reflexivity| |].
  - eapply Forall_impl; [exact Hbefore|]. intros h' Hh'. cbn beta in *.
    unfold result, try_except in *.
    by destruct (run_checks hostvars h' c) as [[[]|e'] c'].
  - pose proof (run_checks_last_checked_host hostvars host c) as Hname.
    unfold result, try_except, bind, get_ctx, raise in *.
    destruct (run_checks hostvars host c) as [[[]|e'] c']; [done|].
    cbn [fst snd] in *. injection Hhost as ->. rewrite Hname.
    reflexivity.
Qed.

(** [run] does not read the state it is started in: started in any two
    states it gives the same outcome and leaves the same state.  So a
    second run, started in the state the first has left, gives the outcome
    of the first. *)
Theorem run_twice
    (base_result : gmap string value) (check_hosts : option (list string))
    (task_vars : option task_vars_t) (c : ctx) :
  (∀ c', run base_result check_hosts task_vars c'
         = run base_result check_hosts task_vars c)
  ∧ result (run base_result check_hosts task_vars)
           (run base_result check_hosts task_vars c).2
    = result (run base_result check_hosts task_vars) c.
Proof.
  assert (Hobl : oblivious (run base_result check_hosts task_vars)).
  { by intros c1 c2. }
  split; [intros c'; apply Hobl|]. unfold result. by rewrite (Hobl _ c).
Qed.

(** When every host passes, [run] touches three keys of the result of the
    base class only: [changed] and [failed] are set to false and [msg] to
    the message, over what the base class may have put there, and every
    other key keeps its value. *)
Theorem run_result_record
    (base_result : gmap string value) (check_hosts : list string)
    (task_vars : task_vars_t) (hostvars : hostvars_t) (c : ctx) :
  check_hosts ≠ [] →
  tv_hostvars task_vars = Some hostvars →
  Forall (λ host, result (run_checks hostvars host) c = Return tt)
         check_hosts →
  ∃ res,
    result (run base_result (Some check_hosts) (Some task_vars)) c = Return res
    ∧ dom res = dom base_result ∪ {["changed"; "failed"; "msg"]}
    ∧ ∀ key, key ≠ "changed" → key ≠ "failed" → key ≠ "msg" →
             res !! key = base_result !! key.
Proof.
  intros Hne Htv Hpass.
  destruct check_hosts as [|host hosts]; [done|].
  assert (Hhv : hostvars ≠ ∅).
  { intros ->. apply Forall_inv in Hpass.
    rewrite run_checks_absent_host in Hpass by apply lookup_empty. done. }
  eexists. split; [|split].
  - rewrite (run_eq _ _ _ _ _ _ c Htv Hhv).
    assert (Hall : first_raise
      (λ host0,
         result
           (try_except (run_checks hostvars host0) (λ uncaught_e,
              c <- get_ctx ;;
              raise (AnsibleModuleError
                (py_format "last_checked_host: {}, last_checked_var: {};"
                           [last_checked_host c; last_checked_var c]
                 +:+ py_str_exn uncaught_e)))) c)
      (host :: hosts) = Return tt).
    { apply first_raise_return. intros h Hin.
      rewrite Forall_forall in Hpass. specialize (Hpass h Hin).
      unfold result, try_except in *.
      by destruct (run_checks hostvars h c) as [[[]|e'] c']. }
    rewrite Hall. reflexivity.
  - rewrite !dom_insert_L. set_solver.
  - intros key H1 H2 H3. by rewrite !lookup_insert_ne.
Qed.

(** ** The hostnames *)

Lemma hostname_outcome_return varname v :
  hostname_outcome varname v = Return tt ↔ hostname_ok v.
Proof.
  unfold hostname_outcome, hostname_ok.
  destruct (py_truthy v); [|by split; [left|]].
  destruct (py_len v) as [n|].
  - destruct (Nat.ltb_spec 63 n); split; try done.
    + intros [|(m & [= <-] & Hm)]; [done|lia].
    + intros _. right. exists n. split; [done|lia].
  - split; [done|]. by intros [|(m & ? & _)].
Qed.

Lemma check_hostname_vars_eq hostvars host host_vars c :
  hostvars !! host = Some host_vars →
  result (check_hostname_vars hostvars host) c
  = first_raise (λ varname, hostname_outcome varname (resolved host_vars varname))
      ["openshift_public_hostname"; "openshift_hostname"].
Proof.
  intros Hh. unfold check_hostname_vars. apply for_each_first_raise.
  intros varname c' _. unfold result.
  rewrite (bind_template_var _ _ _ _ _ _ Hh). unfold hostname_outcome.
  destruct (py_truthy _); [|reflexivity].
  unfold bind, len. destruct (py_len _) as [n|]; [|reflexivity].
  cbn [ret]. destruct (63 <? n)%nat; reflexivity.
Qed.

(** The hostname rule passes exactly when each of
    [openshift_public_hostname] and [openshift_hostname] is falsy (absent,
    empty) or has a length of at most 63: a hostname of 63 characters
    passes, one of 64 does not. *)
Theorem check_hostname_vars_passes
    (hostvars : hostvars_t) (host : string) (host_vars : gmap string value)
    (c : ctx) :
  hostvars !! host = Some host_vars →
  result (check_hostname_vars hostvars host) c = Return tt
  ↔ hostname_ok (resolved host_vars "openshift_public_hostname")
    ∧ hostname_ok (resolved host_vars "openshift_hostname").
Proof.
  intros Hh. rewrite (check_hostname_vars_eq _ _ _ _ Hh), first_raise_return.
  setoid_rewrite hostname_outcome_return. split.
  - intros H. split; apply H; rewrite !elem_of_cons; tauto.
  - intros [H1 H2] varname Hin.
    rewrite !elem_of_cons, elem_of_nil in Hin.
    by destruct Hin as [->|[->|[]]].
Qed.

(** The hostname rule looks at [openshift_public_hostname] first: when
    that is a string of more than 63 characters the failure names it,
    whatever [openshift_hostname] is; the failure names
    [openshift_hostname] when the public hostname passes and it is itself a
    string of more than 63 characters. *)
Theorem check_hostname_vars_too_long
    (hostvars : hostvars_t) (host : string) (host_vars : gmap string value)
    (c : ctx) :
  hostvars !! host = Some host_vars →
  let public := resolved host_vars "openshift_public_hostname" in
  let hostname := resolved host_vars "openshift_hostname" in
  let r := result (check_hostname_vars hostvars host) c in
  (∀ s, public = VStr s → (63 < String.length s)%nat →
   r = Raise (AnsibleModuleError
         "openshift_public_hostname must be 63 characters or less"))
  ∧ (hostname_ok public →
     ∀ s, hostname = VStr s → (63 < String.length s)%nat →
     r = Raise (AnsibleModuleError
           "openshift_hostname must be 63 characters or less")).
Proof.
  intros Hh public hostname r.
  assert (Hlong : ∀ varname s, (63 < String.length s)%nat →
            hostname_outcome varname (VStr s)
            = Raise (AnsibleModuleError
                       (varname +:+ " must be 63 characters or less"))).
  { intros varname s Hs. unfold hostname_outcome.
    destruct s as [|ch s]; [cbn in Hs; lia|].
    cbn [py_truthy py_len String.eqb negb].
    apply Nat.ltb_lt in Hs. by rewrite Hs. }
  unfold r. rewrite (check_hostname_vars_eq _ _ _ _ Hh). cbn [first_raise].
  fold public hostname. split.
  - intros s -> Hs. by rewrite Hlong.
  - intros Hpub s -> Hs. apply (hostname_outcome_return "openshift_public_hostname") in Hpub.
    rewrite Hpub. by rewrite Hlong.
Qed.

(** A hostname that is truthy and has no length, a number or [true], makes
    the hostname rule raise [TypeError], not the failure of the plugin. *)
Theorem check_hostname_vars_unsized
    (hostvars : hostvars_t) (host : string) (host_vars : gmap string value)
    (c : ctx) :
  hostvars !! host = Some host_vars →
  let public := resolved host_vars "openshift_public_hostname" in
  let hostname := resolved host_vars "openshift_hostname" in
  let r := result (check_hostname_vars hostvars host) c in
  (py_truthy public = true → py_len public = None → r = Raise TypeError)
  ∧ (hostname_ok public →
     py_truthy hostname = true → py_len hostname = None →
     r = Raise TypeError).
Proof.
  intros Hh public hostname r.
  unfold r. rewrite (check_hostname_vars_eq _ _ _ _ Hh). cbn [first_raise].
  fold public hostname. split.
  - intros Ht Hl. unfold hostname_outcome. by rewrite Ht, Hl.
  - intros Hpub Ht Hl. apply (hostname_outcome_return "openshift_public_hostname") in Hpub.
    rewrite Hpub. unfold hostname_outcome. by rewrite Ht, Hl.
Qed.

(** ** The python facts, when they are missing *)

(** Without the facts it reads, the python rule raises for every distro,
    Fedora or not, and what it raises is not the failure of the plugin:
    [TypeError] when [ansible_python] or its [version] is not a mapping
    (an absent [ansible_python] is [None]), [KeyError] when the mapping has
    no [version] or the version no [major]. *)
Theorem check_python_version_missing_facts
    (hostvars : hostvars_t) (host : string) (host_vars : gmap string value)
    (distro : value) (c : ctx) :
  hostvars !! host = Some host_vars →
  let ansible_python := resolved host_vars "ansible_python" in
  let r := result (check_python_version hostvars host distro) c in
  ((∀ d, ansible_python ≠ VDict d) → r = Raise TypeError)
  ∧ (∀ d, ansible_python = VDict d → d !! "version" = None →
     r = Raise (KeyError (VStr "version")))
  ∧ (∀ d version, ansible_python = VDict d → d !! "version" = Some version →
     (∀ d', version ≠ VDict d') → r = Raise TypeError)
  ∧ (∀ d d', ansible_python = VDict d → d !! "version" = Some (VDict d') →
     d' !! "major" = None → r = Raise (KeyError (VStr "major"))).
Proof.
  intros Hh ansible_python r.
  assert (Hr : r = result
    (if py_eq distro (SStr "Fedora") then
       version <- py_getitem ansible_python "version" ;;
       major <- py_getitem version "major" ;;
       if negb (py_eq major (SInt 3)) then
         raise (AnsibleModuleError
           ((py_format "openshift-ansible requires Python 3 for {};"
                       [py_str distro]
             +:+ " For information on enabling Python 3 with Ansible,")
            +:+ " see https://docs.ansible.com/ansible/python_3_support.html"))
       else ret tt
     else
       version <- py_getitem ansible_python "version" ;;
       major <- py_getitem version "major" ;;
       if negb (py_eq major (SInt 2)) then ret tt else ret tt)
    {| last_checked_host := host; last_checked_var := "ansible_python" |}).
  { unfold r, result, check_python_version.
    by rewrite (bind_template_var _ _ _ _ _ _ Hh). }
  rewrite Hr. clear Hr. split; [|split; [|split]].
  - intros Hnd. destruct ansible_python as [a|l|d];
      [by destruct (py_eq distro _)..|by destruct (Hnd d)].
  - intros d -> Hv. unfold result, bind, py_getitem. rewrite Hv.
    by destruct (py_eq distro _).
  - intros d version -> Hv Hnd. unfold result, bind. unfold py_getitem at 1 3.
    rewrite Hv. cbn [ret].
    destruct version as [a|l|d']; [by destruct (py_eq distro _)..|].
    by destruct (Hnd d').
  - intros d d' -> Hv Hm. unfold result, bind, py_getitem. rewrite Hv.
    cbn [ret]. rewrite Hm. by destruct (py_eq distro _).
Qed.

(** ** The nfs storage kinds, in their order *)

(** When unsupported configurations are not enabled, the nfs rule names
    the first storage-kind variable, in the order of [STORAGE_KIND_TUPLE],
    that resolves to "nfs"; the variables after it are not looked up. *)
Theorem check_unsupported_nfs_configs_first
    (hostvars : hostvars_t) (host : string) (host_vars : gmap string value)
    (c : ctx) :
  hostvars !! host = Some host_vars →
  to_bool (resolved host_vars "openshift_enable_unsupported_configurations")
  = false →
  check_unsupported_nfs_configs hostvars host c
  = match find (λ storage, py_eq (resolved host_vars storage) (SStr "nfs"))
            STORAGE_KIND_TUPLE with
    | Some storage =>
        (Raise (AnsibleModuleError
           ("nfs is an unsupported type for " +:+ storage
            +:+ ". openshift_enable_unsupported_configurations=True mustbe specified to continue with this configuration.")),
         {| last_checked_host := host; last_checked_var := storage |})
    | None =>
        (Return tt,
         {| last_checked_host := host;
            last_checked_var := "openshift_prometheus_storage_kind" |})
    end.
Proof.
  intros Hh Hflag. unfold check_unsupported_nfs_configs.
  rewrite (bind_template_var _ _ _ _ _ _ Hh), Hflag.
  unfold STORAGE_KIND_TUPLE. cbn [for_each find].
  repeat (unfold bind at 1; rewrite (bind_template_var _ _ _ _ _ _ Hh);
          destruct (py_eq (resolved host_vars _) (SStr "nfs"));
          [reflexivity|cbn [ret]]).
  reflexivity.
Qed.

(** ** The variable a diagnostic names *)

Lemma leaves_state_ret {A} (a : A) : leaves_state (ret a).
Proof. by intros c. Qed.

Lemma leaves_state_raise {A} (e : exn) : leaves_state (@raise A e).
Proof. by intros c. Qed.

Lemma leaves_state_bind {A B} (m : M A) (k : A → M B) :
  leaves_state m → (∀ a, leaves_state (k a)) → leaves_state (bind m k).
Proof.
  intros Hm Hk c. specialize (Hm c). unfold bind.
  destruct (m c) as [[a|e] c1]; cbn in Hm; subst c1; [apply Hk|reflexivity].
Qed.

Lemma leaves_state_for_each {A} (xs : list A) (body : A → M unit) :
  (∀ x, leaves_state (body x)) → leaves_state (for_each xs body).
Proof.
  intros Hbody. induction xs as [|x xs IH]; [apply leaves_state_ret|].
  apply leaves_state_bind; [apply Hbody|by intros _].
Qed.

Ltac leaves_state_steps :=
  repeat first
    [ apply leaves_state_ret
    | apply leaves_state_raise
    | apply leaves_state_for_each; intros ?
    | progress unfold len, py_iter, py_getitem, py_contains, table_getitem
    | match goal with
      | |- leaves_state (if ?b then _ else _) => destruct b
      | |- leaves_state (match ?x with _ => _ end) => destruct x
      end
    | apply leaves_state_bind; [|intros ?] ].

Lemma last_cons_default {A} (x : A) l d d' :
  List.last (x :: l) d = List.last (x :: l) d'.
Proof.
  revert x. induction l as [|y l IH]; intros x; [reflexivity|].
  change (List.last (y :: l) d = List.last (y :: l) d'). apply IH.
Qed.

Lemma net_plugin_flags_state hostvars host host_vars plugin plugins c :
  hostvars !! host = Some host_vars →
  net_plugin_flags hostvars host (plugin :: plugins) c
  = (Return (toggle host_vars <$> plugin :: plugins),
     {| last_checked_host := host;
        last_checked_var := (List.last (plugin :: plugins) plugin).1 |}).
Proof.
  intros Hh. revert plugin c.
  induction plugins as [|next plugins IH]; intros [name default_val] c.
  - cbn [net_plugin_flags]. by rewrite (bind_template_var _ _ _ _ _ _ Hh).
  - change (net_plugin_flags hostvars host ((name, default_val) :: next :: plugins))
      with (res_temp <- template_var hostvars host name ;;
            let res_temp := if is_None res_temp then default_val else res_temp in
            flags <- net_plugin_flags hostvars host (next :: plugins) ;;
            ret (to_bool res_temp :: flags)).
    rewrite (bind_template_var _ _ _ _ _ _ Hh). cbv zeta.
    unfold bind at 1. rewrite IH. cbn [ret].
    change (List.last ((name, default_val) :: next :: plugins) (name, default_val))
      with (List.last (next :: plugins) (name, default_val)).
    by rewrite (last_cons_default next plugins next (name, default_val)).
Qed.

(** The variable a diagnostic of [run] names is the one looked up last,
    which for three rules is not the one at fault: after the network
    rule, pass or fail, it is [openshift_use_kuryr], whichever plugins are
    switched on; after the session-secrets rule it is the encryption
    secrets, also when the auth secrets are at fault; after the htpasswd
    rule on providers that are not falsy it is
    [openshift_master_manage_htpasswd]. *)
Theorem last_checked_var_of_rules
    (hostvars : hostvars_t) (host : string) (host_vars : gmap string value)
    (c : ctx) :
  hostvars !! host = Some host_vars →
  last_checked_var (network_plugin_check hostvars host c).2
  = "openshift_use_kuryr"
  ∧ last_checked_var (check_session_auth_secrets hostvars host c).2
    = "openshift_master_session_encryption_secrets"
  ∧ (py_truthy (resolved host_vars "openshift_master_identity_providers")
     = true →
     last_checked_var (check_htpasswd_provider hostvars host c).2
     = "openshift_master_manage_htpasswd").
Proof.
  intros Hh. split; [|split].
  - unfold network_plugin_check, NET_PLUGIN_LIST, bind.
    rewrite (net_plugin_flags_state _ _ _ _ _ _ Hh).
    by destruct (negb _).
  - unfold check_session_auth_secrets.
    rewrite (bind_template_var _ _ _ _ _ _ Hh).
    rewrite (bind_template_var _ _ _ _ _ _ Hh).
    match goal with
    | |- last_checked_var (?m ?cc).2 = _ =>
        assert (Hm : leaves_state m); [|by rewrite (Hm cc)]
    end.
    leaves_state_steps.
  - intros Hidps. unfold check_htpasswd_provider.
    rewrite (bind_template_var _ _ _ _ _ _ Hh), Hidps. cbn [negb].
    rewrite (bind_template_var _ _ _ _ _ _ Hh).
    match goal with
    | |- last_checked_var (?m ?cc).2 = _ =>
        assert (Hm : leaves_state m); [|by rewrite (Hm cc)]
    end.
    leaves_state_steps.
Qed.

(** ** The htpasswd providers, whatever their shape *)

(** When [openshift_master_manage_htpasswd] coerces to true the htpasswd
    rule passes without looking into the providers: it passes whatever they
    are, a provider with a legacy key or a value that is no list at all. *)
Theorem check_htpasswd_provider_managed
    (hostvars : hostvars_t) (host : string) (host_vars : gmap string value)
    (c : ctx) :
  hostvars !! host = Some host_vars →
  to_bool (resolved host_vars "openshift_master_manage_htpasswd") = true →
  result (check_htpasswd_provider hostvars host) c = Return tt.
Proof.
  intros Hh Hm. unfold result, check_htpasswd_provider.
  rewrite (bind_template_var _ _ _ _ _ _ Hh).
  destruct (negb (py_truthy _)); [reflexivity|].
  by rewrite (bind_template_var _ _ _ _ _ _ Hh), Hm.
Qed.

Lemma check_htpasswd_provider_unmanaged hostvars host host_vars c :
  hostvars !! host = Some host_vars →
  py_truthy (resolved host_vars "openshift_master_identity_providers") = true →
  to_bool (resolved host_vars "openshift_master_manage_htpasswd") = false →
  result (check_htpasswd_provider hostvars host) c
  = match py_iter (resolved host_vars "openshift_master_identity_providers")
            {| last_checked_host := host;
               last_checked_var := "openshift_master_manage_htpasswd" |} with
    | (Return providers, _) => first_raise provider_outcome providers
    | (Raise e, _) => Raise e
    end.
Proof.
  intros Hh Hidps Hm. unfold result, check_htpasswd_provider.
  rewrite (bind_template_var _ _ _ _ _ _ Hh), Hidps. cbn [negb].
  rewrite (bind_template_var _ _ _ _ _ _ Hh), Hm.
  unfold bind at 1.
  destruct (py_iter _ _) as [[providers|e] c']; [|reflexivity].
  apply for_each_first_raise. intros idp c0 _. apply provider_body_result.
Qed.

(** With the htpasswd file not managed, identity providers of the wrong
    shape make the htpasswd rule raise, and not with the failure of the
    plugin: [TypeError] when they are truthy and no list (a string, a
    mapping, a number) or when the first of them is no mapping, [KeyError]
    when the first of them is a mapping without [kind]. *)
Theorem check_htpasswd_provider_malformed
    (hostvars : hostvars_t) (host : string) (host_vars : gmap string value)
    (c : ctx) :
  hostvars !! host = Some host_vars →
  let idps := resolved host_vars "openshift_master_identity_providers" in
  let r := result (check_htpasswd_provider hostvars host) c in
  py_truthy idps = true →
  to_bool (resolved host_vars "openshift_master_manage_htpasswd") = false →
  ((∀ providers, idps ≠ VList providers) → r = Raise TypeError)
  ∧ (∀ idp providers, idps = VList (idp :: providers) →
     (∀ d, idp ≠ VDict d) → r = Raise TypeError)
  ∧ (∀ d providers, idps = VList (VDict d :: providers) →
     d !! "kind" = None → r = Raise (KeyError (VStr "kind"))).
Proof.
  intros Hh idps r Hidps Hm. unfold r.
  rewrite (check_htpasswd_provider_unmanaged _ _ _ _ Hh Hidps Hm).
  fold idps. split; [|split].
  - intros Hnl. destruct idps as [[| | | |s]|l|d];
      try reflexivity; [| by destruct (Hnl l) |].
    + destruct s as [|ch s]; [discriminate|]. reflexivity.
    + cbn [py_iter ret].
      destruct (map_to_list d) as [|[k v] l] eqn:Hl; [|reflexivity].
      apply map_to_list_empty_iff in Hl. subst d.
      cbn in Hidps. by rewrite bool_decide_eq_true_2 in Hidps.
  - intros idp providers -> Hnd. cbn [py_iter ret first_raise].
    destruct idp as [a|l|d]; [reflexivity..|by destruct (Hnd d)].
  - intros d providers -> Hk. cbn [py_iter ret first_raise provider_outcome].
    by rewrite Hk.
Qed.

(** ** The tags the two patterns take *)

Lemma list_ascii_of_string_inj (a b : string) :
  list_ascii_of_string a = list_ascii_of_string b → a = b.
Proof.
  intros H. rewrite <- (string_of_list_ascii_of_string a),
                    <- (string_of_list_ascii_of_string b). by rewrite H.
Qed.

Lemma digits_of_chars ds :
  ds ≠ [] → forallb is_digit ds = true →
  digits (string_of_list_ascii ds) = true.
Proof.
  intros Hne Hds. unfold digits.
  rewrite list_ascii_of_string_of_list_ascii, Hds.
  by destruct ds.
Qed.

Lemma matches_cat_inv total r1 r2 s s2 :
  In s2 (matches total (Cat r1 r2) s) →
  ∃ s1, In s1 (matches total r1 s) ∧ In s2 (matches total r2 s1).
Proof. cbn [matches]. intros H. by apply in_flat_map in H. Qed.

Lemma matches_lit_inv total ch s s' :
  In s' (matches total (Lit ch) s) → s = ch :: s'.
Proof.
  destruct s as [|a s]; [done|]. cbn [matches].
  destruct (Ascii.eqb_spec a ch) as [->|]; [|done]. by intros [->|[]].
Qed.

Lemma matches_eps_inv total s s' : In s' (matches total Eps s) → s' = s.
Proof. by intros [->|[]]. Qed.

Lemma matches_opt_inv total r s s' :
  In s' (matches total (Opt r) s) → In s' (matches total r s) ∨ s' = s.
Proof.
  cbn [matches]. intros H. apply in_app_iff in H as [H|[->|[]]]; auto.
Qed.

Lemma matches_eol_inv total s s' :
  In s' (matches total Eol s) → s' = s ∧ (s = [] ∨ s = [newline]).
Proof.
  destruct s as [|a [|b s]]; cbn [matches]; [| |done].
  - intros [->|[]]. auto.
  - destruct (Ascii.eqb_spec a newline) as [->|]; [|done].
    intros [->|[]]. auto.
Qed.

Lemma star_digits_inv total fuel s s' :
  In s' (star (matches total Digit) fuel s) →
  ∃ ds, forallb is_digit ds = true ∧ s = ds ++ s'.
Proof.
  revert s. induction fuel as [|fuel IH]; intros s.
  - intros [->|[]]. by exists [].
  - rewrite star_S. intros H. apply in_app_iff in H as [H|[->|[]]];
      [|by exists []].
    apply in_flat_map in H as (s1 & Hs1 & H).
    destruct (length s1 <? length s)%nat; [|done].
    destruct (IH _ H) as (ds & Hds & ->).
    destruct s as [|d s]; [done|]. cbn [matches] in Hs1.
    destruct (is_digit d) eqn:Hd; [|done]. destruct Hs1 as [->|[]].
    exists (d :: ds). split; [cbn; by rewrite Hd|reflexivity].
Qed.

Lemma plus_digits_inv total s s' :
  In s' (matches total (Plus Digit) s) →
  ∃ ds, ds ≠ [] ∧ forallb is_digit ds = true ∧ s = ds ++ s'.
Proof.
  change (matches total (Plus Digit) s)
    with (flat_map (λ s', star (matches total Digit) (length s') s')
                   (matches total Digit s)).
  intros H. apply in_flat_map in H as (s1 & Hs1 & H).
  apply star_digits_inv in H as (ds & Hds & ->).
  destruct s as [|d s]; [done|]. cbn [matches] in Hs1.
  destruct (is_digit d) eqn:Hd; [|done]. destruct Hs1 as [->|[]].
  exists (d :: ds). split; [done|]. split; [cbn; by rewrite Hd|reflexivity].
Qed.

Lemma matches_dot_digits_inv total s s' :
  In s' (matches total (Group (cat_all [Lit "."; Plus Digit])) s) →
  ∃ g, digits g = true ∧ s = list_ascii_of_string ("." +:+ g) ++ s'.
Proof.
  change (matches total (Group (cat_all [Lit "."; Plus Digit])) s)
    with (matches total (Cat (Lit ".") (Cat (Plus Digit) Eps)) s).
  intros H. apply matches_cat_inv in H as (s1 & H1 & H).
  apply matches_cat_inv in H as (s2 & H2 & H).
  apply matches_eps_inv in H as ->. apply matches_lit_inv in H1 as ->.
  apply plus_digits_inv in H2 as (ds & Hne & Hds & ->).
  exists (string_of_list_ascii ds). split; [by apply digits_of_chars|].
  change (list_ascii_of_string ("." +:+ string_of_list_ascii ds))
    with ("."%char :: list_ascii_of_string (string_of_list_ascii ds)).
  by rewrite list_ascii_of_string_of_list_ascii.
Qed.

Lemma matches_dotted_inv total fuel s s' :
  In s' (star (matches total (Group (cat_all [Lit "."; Plus Digit]))) fuel s) →
  ∃ groups, forallb digits groups = true
            ∧ s = list_ascii_of_string (dotted groups) ++ s'.
Proof.
  revert s. induction fuel as [|fuel IH]; intros s.
  - intros [->|[]]. by exists [].
  - rewrite star_S. intros H. apply in_app_iff in H as [H|[->|[]]];
      [|by exists []].
    apply in_flat_map in H as (s1 & Hs1 & H).
    destruct (length s1 <? length s)%nat; [|done].
    destruct (IH _ H) as (groups & Hgroups & ->).
    apply matches_dot_digits_inv in Hs1 as (g & Hg & ->).
    exists (g :: groups). split; [cbn [forallb]; by rewrite Hg, Hgroups|].
    change (dotted (g :: groups)) with (("." +:+ g) +:+ dotted groups).
    by rewrite (list_ascii_of_string_app ("." +:+ g)), <- app_assoc.
Qed.

Lemma matches_build_inv total s s' :
  In s' (matches total
           (Opt (Group (cat_all
              [Lit "-"; Plus Digit;
               Star (Group (cat_all [Lit "."; Plus Digit]))]))) s) →
  ∃ build,
    match build with
    | None => true
    | Some (b, bs) => digits b && forallb digits bs
    end = true
    ∧ s = list_ascii_of_string
            match build with
            | None => ""
            | Some (b, bs) => "-" +:+ b +:+ dotted bs
            end ++ s'.
Proof.
  intros H. apply matches_opt_inv in H as [H| ->]; [|by exists None].
  change (In s' (matches total
    (Cat (Lit "-") (Cat (Plus Digit)
       (Cat (Star (Group (cat_all [Lit "."; Plus Digit]))) Eps))) s)) in H.
  apply matches_cat_inv in H as (s1 & H1 & H).
  apply matches_cat_inv in H as (s2 & H2 & H).
  apply matches_cat_inv in H as (s3 & H3 & H).
  apply matches_eps_inv in H as ->. apply matches_lit_inv in H1 as ->.
  apply plus_digits_inv in H2 as (ds & Hne & Hds & ->).
  apply matches_dotted_inv in H3 as (bs & Hbs & ->).
  exists (Some (string_of_list_ascii ds, bs)). split.
  - by rewrite digits_of_chars, Hbs.
  - change ("-" +:+ ?x) with (String "-" x). cbn [list_ascii_of_string].
    rewrite list_ascii_of_string_app, list_ascii_of_string_of_list_ascii.
    cbn [app]. by rewrite <- app_assoc.
Qed.

Lemma matches_bol_inv total s s' : In s' (matches total Bol s) → s' = s.
Proof.
  cbn [matches]. destruct (length s =? total)%nat; [|done]. by intros [->|[]].
Qed.

Lemma enterprise_tag_chars (t : enterprise_tag) :
  list_ascii_of_string (enterprise_tag_text t)
  = "v"%char :: list_ascii_of_string (et_major t)
    ++ "."%char :: list_ascii_of_string (et_minor t)
    ++ list_ascii_of_string (dotted (et_more t))
    ++ list_ascii_of_string
         match et_build t with
         | None => ""
         | Some (b, bs) => "-" +:+ b +:+ dotted bs
         end.
Proof.
  unfold enterprise_tag_text.
  change ("v" +:+ ?x) with (String "v" x).
  cbn [list_ascii_of_string]. rewrite list_ascii_of_string_app.
  change ("." +:+ ?x) with (String "." x).
  cbn [list_ascii_of_string]. by rewrite !list_ascii_of_string_app.
Qed.

Lemma matches_build_rest total build rest :
  match build with
  | None => true
  | Some (b, bs) => digits b && forallb digits bs
  end = true →
  In rest (matches total
             (Opt (Group (cat_all
                [Lit "-"; Plus Digit;
                 Star (Group (cat_all [Lit "."; Plus Digit]))])))
             (list_ascii_of_string
                match build with
                | None => ""
                | Some (b, bs) => "-" +:+ b +:+ dotted bs
                end ++ rest)).
Proof.
  destruct build as [[b bs]|]; intros Hwf; [|apply matches_opt_skip].
  apply andb_prop in Hwf as [Hb Hbs]. apply digits_chars in Hb as [Hne Hb].
  apply matches_opt_take.
  change (In rest (matches total
    (Cat (Lit "-") (Cat (Plus Digit)
       (Cat (Star (Group (cat_all [Lit "."; Plus Digit]))) Eps)))
    (("-"%char :: list_ascii_of_string (b +:+ dotted bs)) ++ rest))).
  rewrite list_ascii_of_string_app. cbn [app]. rewrite <- app_assoc.
  eapply matches_cat; [apply matches_lit|].
  eapply matches_cat; [by apply matches_plus_digits|].
  eapply matches_cat; [|by left].
  apply matches_dotted; [done|lia].
Qed.

Lemma matches_eol_tail total tail :
  tail = [] ∨ tail = [newline] → In tail (matches total Eol tail).
Proof. intros [-> | ->]; by left. Qed.

(** A well-formed tag of the enterprise format, alone or before one last
    newline, is matched by the enterprise pattern. *)
Lemma enterprise_tag_matches_tail (t : enterprise_tag) tail :
  enterprise_tag_wf t = true → tail = [] ∨ tail = [newline] →
  let s := list_ascii_of_string (enterprise_tag_text t) ++ tail in
  In tail (matches (length s) (re ENTERPRISE_TAG_REGEX) s).
Proof.
  intros Hwf Htail s. unfold enterprise_tag_wf in Hwf.
  apply andb_prop in Hwf as [Hwf Hbuild]. apply andb_prop in Hwf as [Hwf Hmore].
  apply andb_prop in Hwf as [Hmaj Hmin].
  apply digits_chars in Hmaj as [Hmaj0 Hmaj], Hmin as [Hmin0 Hmin].
  change (re ENTERPRISE_TAG_REGEX) with
    (Group (Cat Bol (Cat (Lit "v") (Cat (Plus Digit) (Cat (Lit ".")
       (Cat (Plus Digit)
       (Cat (Star (Group (cat_all [Lit "."; Plus Digit])))
       (Cat (Opt (Group (cat_all
                    [Lit "-"; Plus Digit;
                     Star (Group (cat_all [Lit "."; Plus Digit]))])))
       (Cat Eol Eps))))))))).
  change (matches (length s) (Group ?r) s) with (matches (length s) r s).
  eapply matches_cat; [apply matches_bol|].
  generalize (length s). intros total. subst s.
  rewrite enterprise_tag_chars. cbn [app]. rewrite <- !app_assoc.
  cbn [app]. rewrite <- !app_assoc.
  eapply matches_cat; [apply matches_lit|].
  eapply matches_cat; [by apply matches_plus_digits|].
  eapply matches_cat; [apply matches_lit|].
  eapply matches_cat; [by apply matches_plus_digits|].
  eapply matches_cat; [by apply matches_dotted|].
  eapply matches_cat; [by apply matches_build_rest|].
  eapply matches_cat; [by apply matches_eol_tail|by left].
Qed.

Lemma head_Some_In {A} (l : list A) x : head l = Some x → In x l.
Proof. destruct l; [done|]. intros [= ->]. by left. Qed.

Lemma In_head_Some {A} (l : list A) x : In x l → is_Some (head l).
Proof. destruct l; [done|]. by eexists. Qed.

(** The enterprise pattern takes exactly the tags of the enterprise
    format and those followed by one newline. *)
Lemma enterprise_pattern_iff (subject : string) :
  is_Some (re_match (re ENTERPRISE_TAG_REGEX) subject)
  ↔ enterprise_tag_shape subject.
Proof.
  split.
  - intros [m Hm]. unfold re_match in Hm. apply head_Some_In in Hm.
    revert Hm. generalize (length (list_ascii_of_string subject)).
    intros total Hm.
    change (re ENTERPRISE_TAG_REGEX) with
      (Group (Cat Bol (Cat (Lit "v") (Cat (Plus Digit) (Cat (Lit ".")
         (Cat (Plus Digit)
         (Cat (Star (Group (cat_all [Lit "."; Plus Digit])))
         (Cat (Opt (Group (cat_all
                      [Lit "-"; Plus Digit;
                       Star (Group (cat_all [Lit "."; Plus Digit]))])))
         (Cat Eol Eps))))))))) in Hm.
    change (matches total (Group ?r) ?s) with (matches total r s) in Hm.
    apply matches_cat_inv in Hm as (s0 & H0 & Hm).
    apply matches_cat_inv in Hm as (s1 & H1 & Hm).
    apply matches_cat_inv in Hm as (s2 & H2 & Hm).
    apply matches_cat_inv in Hm as (s3 & H3 & Hm).
    apply matches_cat_inv in Hm as (s4 & H4 & Hm).
    apply matches_cat_inv in Hm as (s5 & H5 & Hm).
    apply matches_cat_inv in Hm as (s6 & H6 & Hm).
    apply matches_cat_inv in Hm as (s7 & H7 & Hm).
    apply matches_eps_inv in Hm as ->.
    apply matches_bol_inv in H0 as ->.
    apply matches_lit_inv in H1.
    apply plus_digits_inv in H2 as (major & Hmaj0 & Hmaj & ->).
    apply matches_lit_inv in H3 as ->.
    apply plus_digits_inv in H4 as (minor & Hmin0 & Hmin & ->).
    change (matches total (Star ?r) ?s)
      with (star (matches total r) (length s) s) in H5.
    apply matches_dotted_inv in H5 as (more & Hmore & ->).
    apply matches_build_inv in H6 as (build & Hbuild & ->).
    apply matches_eol_inv in H7 as [-> Htail].
    exists {| et_major := string_of_list_ascii major;
              et_minor := string_of_list_ascii minor;
              et_more := more; et_build := build |}.
    split.
    + unfold enterprise_tag_wf. cbn [et_major et_minor et_more et_build].
      by rewrite !digits_of_chars, Hmore, Hbuild.
    + destruct Htail as [-> | ->]; [left|right];
        apply list_ascii_of_string_inj;
        rewrite ?list_ascii_of_string_app, enterprise_tag_chars, H1;
        cbn [et_major et_minor et_more et_build];
        rewrite !list_ascii_of_string_of_list_ascii;
        cbn [app list_ascii_of_string]; rewrite <- ?app_assoc;
        cbn [app]; rewrite <- ?app_assoc; rewrite ?app_nil_r; reflexivity.
  - intros (t & Hwf & [-> | ->]); unfold re_match.
    + eapply In_head_Some.
      pose proof (enterprise_tag_matches_tail t [] Hwf (or_introl eq_refl))
        as H. cbv zeta in H. rewrite app_nil_r in H. exact H.
    + eapply In_head_Some. rewrite list_ascii_of_string_app.
      exact (enterprise_tag_matches_tail t [newline] Hwf (or_intror eq_refl)).
Qed.

(** The origin pattern takes exactly the tags that start with an optional
    [v], digits, a dot and digits. *)
Lemma origin_pattern_iff (subject : string) :
  is_Some (re_match (re ORIGIN_TAG_REGEX) subject)
  ↔ origin_tag_shape subject.
Proof.
  split.
  - intros [m Hm]. unfold re_match in Hm. apply head_Some_In in Hm.
    revert Hm. generalize (length (list_ascii_of_string subject)).
    intros total Hm.
    change (re ORIGIN_TAG_REGEX) with
      (Group (Cat Bol (Cat (Opt (Lit "v")) (Cat (Plus Digit) (Cat (Lit ".")
         (Cat (Plus Digit) (Cat (Star AnyChar) Eps))))))) in Hm.
    change (matches total (Group ?r) ?s) with (matches total r s) in Hm.
    apply matches_cat_inv in Hm as (s0 & H0 & Hm).
    apply matches_cat_inv in Hm as (s1 & H1 & Hm).
    apply matches_cat_inv in Hm as (s2 & H2 & Hm).
    apply matches_cat_inv in Hm as (s3 & H3 & Hm).
    apply matches_cat_inv in Hm as (s4 & H4 & _).
    apply matches_bol_inv in H0 as ->.
    apply plus_digits_inv in H2 as (major & Hmaj0 & Hmaj & ->).
    apply matches_lit_inv in H3 as ->.
    apply plus_digits_inv in H4 as (minor & Hmin0 & Hmin & ->).
    apply matches_opt_inv in H1 as [H1|H1];
      [apply matches_lit_inv in H1; exists "v"|exists ""];
      exists (string_of_list_ascii major), (string_of_list_ascii minor),
             (string_of_list_ascii s4);
      (split; [auto|]); (split; [by apply digits_of_chars|]);
      (split; [by apply digits_of_chars|]);
      apply list_ascii_of_string_inj;
      rewrite ?list_ascii_of_string_app, ?list_ascii_of_string_of_list_ascii;
      [rewrite H1|rewrite <- H1]; cbn [list_ascii_of_string app];
      rewrite ?list_ascii_of_string_app, ?list_ascii_of_string_of_list_ascii;
      cbn [list_ascii_of_string app]; reflexivity.
  - intros (v & major & minor & rest & Hv & Hmaj & Hmin & ->).
    apply digits_chars in Hmaj as [Hmaj0 Hmaj], Hmin as [Hmin0 Hmin].
    unfold re_match. apply (In_head_Some _ (list_ascii_of_string rest)).
    change (re ORIGIN_TAG_REGEX) with
      (Group (Cat Bol (Cat (Opt (Lit "v")) (Cat (Plus Digit) (Cat (Lit ".")
         (Cat (Plus Digit) (Cat (Star AnyChar) Eps))))))).
    change (matches ?n (Group ?r) ?s) with (matches n r s).
    eapply matches_cat; [apply matches_bol|].
    generalize (length (list_ascii_of_string
                          (v +:+ major +:+ "." +:+ minor +:+ rest))).
    intros total.
    rewrite !list_ascii_of_string_app. cbn [list_ascii_of_string app].
    eapply (matches_cat _ _ _ _
              (list_ascii_of_string major
               ++ "."%char :: list_ascii_of_string minor
               ++ list_ascii_of_string rest)).
    { destruct Hv as [-> | ->];
        [apply matches_opt_skip|apply matches_opt_take, matches_lit]. }
    eapply matches_cat; [by apply matches_plus_digits|].
    eapply matches_cat; [apply matches_lit|].
    eapply matches_cat; [by apply matches_plus_digits|].
    eapply matches_cat; [|by left].
    apply star_self.
Qed.

(** Under openshift-enterprise a tag that is a string passes exactly when
    it is empty, "latest", or of the enterprise format, a last newline
    allowed; every other string fails with the enterprise message, which
    ends in the tag. *)
Theorem check_image_tag_format_enterprise
    (hostvars : hostvars_t) (host : string) (host_vars : gmap string value)
    (tag : string) (c : ctx) :
  hostvars !! host = Some host_vars →
  resolved host_vars "openshift_image_tag" = VStr tag →
  let r := result (check_image_tag_format hostvars host
                     (VStr "openshift-enterprise")) c in
  (r = Return tt ↔ tag = "" ∨ tag = "latest" ∨ enterprise_tag_shape tag)
  ∧ (r ≠ Return tt →
     r = Raise (AnsibleModuleError (
"openshift_image_tag must be in the format
v#.#[.#[.#]]. Examples: v1.2, v3.4.1, v3.5.1.3,
v3.5.1.3.4, v1.2-1, v1.2.3-4, v1.2.3-4.5, v1.2.3-4.5.6
You specified openshift_image_tag=" +:+ tag))).
Proof.
  intros Hh Htag r.
  destruct (negb (py_truthy (VStr tag)) || py_eq (VStr tag) (SStr "latest"))
    eqn:Hguard.
  - assert (Hr : r = Return tt).
    { apply (check_image_tag_format_trivial _ _ _ _ _ Hh). by rewrite Htag. }
    rewrite Hr. split; [|done]. split; [|done]. intros _.
    cbn [py_truthy py_eq scalar_eqb] in Hguard. rewrite negb_involutive in Hguard.
    apply orb_prop in Hguard as [H|H]; apply String.eqb_eq in H; auto.
  - assert (Hr : r = match re_match (re ENTERPRISE_TAG_REGEX) tag with
                     | None => Raise (AnsibleModuleError
                                 (py_format ENTERPRISE_TAG_REGEX_ERROR [tag]))
                     | Some _ => Return tt
                     end).
    { exact (check_image_tag_format_string hostvars host host_vars c tag _ _
               Hh Htag Hguard image_tag_regex_enterprise). }
    cbn [py_truthy py_eq scalar_eqb] in Hguard. rewrite negb_involutive in Hguard.
    apply orb_false_elim in Hguard as [H1 H2].
    apply String.eqb_neq in H1, H2.
    pose proof (enterprise_pattern_iff tag) as Hiff.
    rewrite Hr. destruct (re_match (re ENTERPRISE_TAG_REGEX) tag) as [m|].
    + split; [|done]. split; [|done]. intros _. right. right.
      apply Hiff. by eexists.
    + split.
      * split; [done|]. intros [?|[?|Hs]]; [done..|].
        apply Hiff in Hs as [? ?]. done.
      * intros _. do 2 f_equal. unfold ENTERPRISE_TAG_REGEX_ERROR.
        cbn [py_format]. by rewrite append_empty_r.
Qed.

(** Under origin a tag that is a string passes exactly when it is empty,
    "latest", or starts with an optional [v], digits, a dot and digits,
    whatever follows; every other string fails with the origin message,
    which ends in the tag. *)
Theorem check_image_tag_format_origin
    (hostvars : hostvars_t) (host : string) (host_vars : gmap string value)
    (tag : string) (c : ctx) :
  hostvars !! host = Some host_vars →
  resolved host_vars "openshift_image_tag" = VStr tag →
  let r := result (check_image_tag_format hostvars host (VStr "origin")) c in
  (r = Return tt ↔ tag = "" ∨ tag = "latest" ∨ origin_tag_shape tag)
  ∧ (r ≠ Return tt →
     r = Raise (AnsibleModuleError (
"openshift_image_tag must be in the format
v#.#[.#-optional.#]. Examples: v1.2.3, v3.5.1-alpha.1
You specified openshift_image_tag=" +:+ tag))).
Proof.
  intros Hh Htag r.
  destruct (negb (py_truthy (VStr tag)) || py_eq (VStr tag) (SStr "latest"))
    eqn:Hguard.
  - assert (Hr : r = Return tt).
    { apply (check_image_tag_format_trivial _ _ _ _ _ Hh). by rewrite Htag. }
    rewrite Hr. split; [|done]. split; [|done]. intros _.
    cbn [py_truthy py_eq scalar_eqb] in Hguard. rewrite negb_involutive in Hguard.
    apply orb_prop in Hguard as [H|H]; apply String.eqb_eq in H; auto.
  - assert (Hr : r = match re_match (re ORIGIN_TAG_REGEX) tag with
                     | None => Raise (AnsibleModuleError
                                 (py_format ORIGIN_TAG_REGEX_ERROR [tag]))
                     | Some _ => Return tt
                     end).
    { exact (check_image_tag_format_string hostvars host host_vars c tag _ _
               Hh Htag Hguard image_tag_regex_origin). }
    cbn [py_truthy py_eq scalar_eqb] in Hguard. rewrite negb_involutive in Hguard.
    apply orb_false_elim in Hguard as [H1 H2].
    apply String.eqb_neq in H1, H2.
    pose proof (origin_pattern_iff tag) as Hiff.
    rewrite Hr. destruct (re_match (re ORIGIN_TAG_REGEX) tag) as [m|].
    + split; [|done]. split; [|done]. intros _. right. right.
      apply Hiff. by eexists.
    + split.
      * split; [done|]. intros [?|[?|Hs]]; [done..|].
        apply Hiff in Hs as [? ?]. done.
      * intros _. do 2 f_equal. unfold ORIGIN_TAG_REGEX_ERROR.
        cbn [py_format]. by rewrite append_empty_r.
Qed.

(** The deployment type that [check_openshift_deployment_type] returns is
    one of the two valid strings, so a key of the table of patterns: given
    it, as [run_checks] does, the image-tag rule passes or fails with the
    error of the plugin, and never raises [KeyError] on the table. *)
Theorem check_image_tag_format_after_deployment_type
    (hostvars : hostvars_t) (host : string) (host_vars : gmap string value)
    (odt : value) (c : ctx) :
  hostvars !! host = Some host_vars →
  result (check_openshift_deployment_type hostvars host) c = Return odt →
  let r := result (check_image_tag_format hostvars host odt) c in
  (odt = VStr "origin" ∨ odt = VStr "openshift-enterprise")
  ∧ (∃ entry, result (table_getitem IMAGE_TAG_REGEX odt) c = Return entry)
  ∧ (r = Return tt ∨ fails r).
Proof.
  intros Hh Hodt r.
  assert (Hvalid : odt = VStr "origin" ∨ odt = VStr "openshift-enterprise").
  { unfold result, check_openshift_deployment_type in Hodt.
    rewrite (bind_template_var _ _ _ _ _ _ Hh) in Hodt.
    unfold py_in, VALID_DEPLOYMENT_TYPES in Hodt.
    cbn [fmap list_fmap existsb] in Hodt.
    destruct (py_eq (resolved host_vars "openshift_deployment_type")
                (SStr "origin")) eqn:H1.
    - injection Hodt as <-. left. by apply py_eq_str.
    - destruct (py_eq (resolved host_vars "openshift_deployment_type")
                  (SStr "openshift-enterprise")) eqn:H2; [|discriminate].
      injection Hodt as <-. right. by apply py_eq_str. }
  split; [exact Hvalid|].
  assert (Hentry : ∃ entry,
            table_getitem IMAGE_TAG_REGEX odt = ret entry).
  { destruct Hvalid as [-> | ->]; by eexists. }
  destruct Hentry as [entry Hentry]. split; [exists entry; by rewrite Hentry|].
  unfold r, result, check_image_tag_format.
  rewrite (bind_template_var _ _ _ _ _ _ Hh).
  destruct (negb _ || _); [by left|].
  rewrite Hentry. unfold bind, ret, raise.
  destruct (re_match _ _); [by left|]. right. by eexists.
Qed.

(** ** The network plugins and their defaults *)

Lemma network_plugin_check_eq hostvars host host_vars c :
  hostvars !! host = Some host_vars →
  let flags := toggle host_vars <$> NET_PLUGIN_LIST in
  result (network_plugin_check hostvars host) c
  = if (2 <=? count_true flags)%nat
    then Raise (AnsibleModuleError
           (py_format "Host Checked: {} Only one of must be true. Found: {}"
                      [host; str_of_pairs (zip (fst <$> NET_PLUGIN_LIST) flags)]))
    else Return tt.
Proof.
  intros Hh flags. unfold result, network_plugin_check.
  destruct (net_plugin_flags_eq hostvars host host_vars NET_PLUGIN_LIST c Hh)
    as [c' Hflags].
  unfold bind. rewrite Hflags. fold flags.
  unfold py_in. cbn [existsb py_eq scalar_eqb]. rewrite py_sum_count_true.
  destruct (count_true flags) as [|[|n]] eqn:Hn; [reflexivity..|].
  destruct (Z.eqb_spec (Z.of_nat (S (S n))) 0); [lia|].
  destruct (Z.eqb_spec (Z.of_nat (S (S n))) 1); [lia|].
  reflexivity.
Qed.

Lemma count_true_cons b flags :
  count_true (b :: flags) = ((if b then 1 else 0) + count_true flags)%nat.
Proof.
  unfold count_true. destruct b.
  - by rewrite filter_cons_True.
  - by rewrite filter_cons_False.
Qed.

(** The defaults of the network plugins are a valid choice, and the only
    plugin they switch on is the SDN: a host that sets none of the six
    variables passes the network rule, and a host that switches another
    plugin on and leaves [openshift_use_openshift_sdn] unset fails it. *)
Theorem network_plugin_check_defaults
    (hostvars : hostvars_t) (host : string) (host_vars : gmap string value)
    (c : ctx) :
  hostvars !! host = Some host_vars →
  let r := result (network_plugin_check hostvars host) c in
  ((∀ plugin, plugin ∈ (fst <$> NET_PLUGIN_LIST) →
              resolved host_vars plugin = VNone) → r = Return tt)
  ∧ (resolved host_vars "openshift_use_openshift_sdn" = VNone →
     ∀ plugin, plugin ∈ ["openshift_use_flannel"; "openshift_use_nuage";
                         "openshift_use_contiv"; "openshift_use_calico";
                         "openshift_use_kuryr"] →
     to_bool (resolved host_vars plugin) = true → fails r).
Proof.
  intros Hh r. unfold r.
  rewrite (network_plugin_check_eq _ _ _ _ Hh). cbv zeta.
  unfold NET_PLUGIN_LIST. cbn [fmap list_fmap fst].
  split.
  - intros Hnone. unfold toggle. cbn [fst snd].
    rewrite !Hnone by (rewrite !elem_of_cons; tauto).
    reflexivity.
  - intros Hsdn plugin Hin Hplugin.
    assert (Hset : toggle host_vars (plugin, VBool false) = true).
    { unfold toggle. cbn [fst snd].
      destruct (resolved host_vars plugin) as [[]| |] eqn:Hp;
        exact Hplugin. }
    assert (Hcount : (2 ≤ count_true
       [toggle host_vars ("openshift_use_openshift_sdn", VBool true);
        toggle host_vars ("openshift_use_flannel", VBool false);
        toggle host_vars ("openshift_use_nuage", VBool false);
        toggle host_vars ("openshift_use_contiv", VBool false);
        toggle host_vars ("openshift_use_calico", VBool false);
        toggle host_vars ("openshift_use_kuryr", VBool false)])%nat).
    { rewrite !count_true_cons.
      assert (Hdef : toggle host_vars ("openshift_use_openshift_sdn", VBool true)
                     = true).
      { unfold toggle. cbn [fst snd]. by rewrite Hsdn. }
      rewrite Hdef.
      rewrite !elem_of_cons, elem_of_nil in Hin.
      destruct Hin as [->|[->|[->|[->|[->|[]]]]]]; rewrite Hset;
        repeat match goal with
               | |- context [if ?b then _ else _] => destruct b
               end; lia. }
    apply Nat.leb_le in Hcount. rewrite Hcount. by eexists.
Qed.

End ActionModule.

(** * The properties on example inventories *)

(** C1 on the end-to-end example: [run] on the one host [host1]. *)
Lemma run_passes_example :
  ∃ res,
    result (run plain_templar object_text exception_text ∅ (Some ["host1"])
              (Some {| tv_hostvars := Some (inventory host1_vars) |}))
           start_ctx = Return res
    ∧ res !! "changed" = Some (VBool false)
    ∧ res !! "failed" = Some (VBool false)
    ∧ res !! "msg" = Some (VStr "Sanity Checks passed").
Proof.
  apply (run_passes plain_templar object_text exception_text ∅ ["host1"]
           {| tv_hostvars := Some (inventory host1_vars) |}
           (inventory host1_vars) start_ctx).
  - discriminate.
  - reflexivity.
  - constructor; [|constructor]. intros c'. vm_compute. reflexivity.
Defined.

(** C2 on the example host: the deployment type "origin" is returned. *)
Lemma check_openshift_deployment_type_example :
  result (check_openshift_deployment_type plain_templar
            (inventory host1_vars) "host1") start_ctx
  = Return (VStr "origin").
Proof.
  apply (check_openshift_deployment_type_spec plain_templar
           (inventory host1_vars) "host1" host1_vars start_ctx eq_refl).
  left. reflexivity.
Defined.

(** C3 as the specification states it does not hold: under origin the tag
    "3.5" does not fail. *)
Lemma origin_accepts_tag_without_v :
  ¬ fails (result (check_image_tag_format plain_templar object_text
                     (inventory {[ "openshift_image_tag" := VStr "3.5" ]})
                     "host1" (VStr "origin")) start_ctx).
Proof. intros [msg Hmsg]. vm_compute in Hmsg. discriminate. Qed.

(** C3 on an example: "3.5" under openshift-enterprise and under origin. *)
Lemma check_image_tag_format_example :
  fails (result (check_image_tag_format plain_templar object_text
                   (inventory {[ "openshift_image_tag" := VStr "3.5" ]})
                   "host1" (VStr "openshift-enterprise")) start_ctx)
  ∧ result (check_image_tag_format plain_templar object_text
              (inventory {[ "openshift_image_tag" := VStr "3.5" ]})
              "host1" (VStr "origin")) start_ctx = Return tt.
Proof.
  destruct (check_image_tag_format_spec plain_templar object_text
              (inventory {[ "openshift_image_tag" := VStr "3.5" ]})
              "host1" {[ "openshift_image_tag" := VStr "3.5" ]} start_ctx
              eq_refl) as [H35 _].
  destruct (H35 eq_refl) as [Hent Horigin].
  split; [|exact Horigin]. eexists. exact Hent.
Defined.

(** C4 on an example: Fedora with Python 2 raises, and the same facts on
    another distro do not. *)
Lemma check_python_version_example :
  fails (result (check_python_version plain_templar object_text
                   (inventory host1_vars) "host1" (VStr "Fedora")) start_ctx)
  ∧ result (check_python_version plain_templar object_text
              (inventory {[ "ansible_python" := python_facts 3 ]})
              "host1" (VStr "CentOS")) start_ctx = Return tt.
Proof.
  split.
  - eexists.
    refine (proj1 (proj2 (check_python_version_spec plain_templar object_text
              (inventory host1_vars) "host1" host1_vars (VStr "Fedora")
              {[ "version" := VDict {[ "major" := VInt 2 ]} ]}
              {[ "major" := VInt 2 ]} (VInt 2) start_ctx _ _ _ _)) _ _);
      vm_compute; reflexivity.
  - refine (proj2 (proj2 (check_python_version_spec plain_templar object_text
              (inventory {[ "ansible_python" := python_facts 3 ]}) "host1"
              {[ "ansible_python" := python_facts 3 ]} (VStr "CentOS")
              {[ "version" := VDict {[ "major" := VInt 3 ]} ]}
              {[ "major" := VInt 3 ]} (VInt 3) start_ctx _ _ _ _)) _);
      try (vm_compute; reflexivity).
    discriminate.
Defined.

(** C5 on two examples: a provider of the htpasswd kind with the legacy
    key [filename], the htpasswd file not managed, fails; the same provider
    without the key passes. *)
Lemma check_htpasswd_provider_example :
  fails (result (check_htpasswd_provider plain_templar
                   (inventory htpasswd_vars) "host1") start_ctx)
  ∧ result (check_htpasswd_provider plain_templar
              (inventory migrated_vars) "host1") start_ctx = Return tt.
Proof.
  split.
  - refine (proj2 (proj1 (check_htpasswd_provider_spec plain_templar
              (inventory htpasswd_vars) "host1" htpasswd_vars start_ctx _ _)) _).
    + vm_compute. reflexivity.
    + right. exists [VDict htpasswd_provider]. split; [reflexivity|].
      constructor; [|constructor].
      exists htpasswd_provider, (VStr "HTPasswdPasswordIdentityProvider").
      split; [reflexivity|]. vm_compute. reflexivity.
    + exists "filename", [VDict htpasswd_provider], (VDict htpasswd_provider).
      split; [reflexivity|]. split; [discriminate|]. split; [reflexivity|].
      split; [apply list_elem_of_here|].
      exists htpasswd_provider, (VStr "HTPasswdPasswordIdentityProvider").
      split; [reflexivity|]. split; [vm_compute; reflexivity|].
      split; [reflexivity|]. split.
      * unfold legacy_keys. rewrite !elem_of_cons. tauto.
      * eexists. vm_compute. reflexivity.
  - refine (proj2 (proj2 (check_htpasswd_provider_spec plain_templar
              (inventory migrated_vars) "host1" migrated_vars start_ctx _ _)) _).
    + vm_compute. reflexivity.
    + right. exists [VDict migrated_provider]. split; [reflexivity|].
      constructor; [|constructor].
      exists migrated_provider, (VStr "HTPasswdPasswordIdentityProvider").
      split; [reflexivity|]. vm_compute. reflexivity.
    + intros (k & providers & idp & Hidps & _ & _ & Hin & Hk).
      injection Hidps as <-. apply list_elem_of_singleton in Hin as ->.
      destruct Hk as (d & kind & [= <-] & _ & _ & Hkey & [x Hx]).
      unfold legacy_keys in Hkey. rewrite !elem_of_cons, elem_of_nil in Hkey.
      destruct Hkey as [->|[->|[->|[->|[]]]]]; vm_compute in Hx; discriminate.
Defined.

(** C6 on an example: flannel switched on next to the default plugin. *)
Lemma network_plugin_check_example :
  result (network_plugin_check plain_templar
            (inventory {[ "openshift_use_flannel" := VStr "true" ]}) "host1")
         start_ctx
  = Raise (AnsibleModuleError
      "Host Checked: host1 Only one of must be true. Found: [('openshift_use_openshift_sdn', True), ('openshift_use_flannel', True), ('openshift_use_nuage', False), ('openshift_use_contiv', False), ('openshift_use_calico', False), ('openshift_use_kuryr', False)]").
Proof.
  refine (proj1 (proj2 (network_plugin_check_spec plain_templar
            (inventory {[ "openshift_use_flannel" := VStr "true" ]}) "host1"
            {[ "openshift_use_flannel" := VStr "true" ]} start_ctx _)) _).
  - vm_compute. reflexivity.
  - vm_compute. lia.
Defined.

(** C7 on the example of the specification: lists of equal length with
    secrets of valid lengths pass. *)
Lemma check_session_auth_secrets_example :
  result (check_session_auth_secrets plain_templar
            (inventory session_vars) "host1") start_ctx
  = Return tt.
Proof.
  refine (proj2 (proj1 (proj2 (check_session_auth_secrets_spec plain_templar
            (inventory session_vars) "host1" session_vars start_ctx _))) _).
  - vm_compute. reflexivity.
  - right. exists [secret "a" 32; secret "b" 32], [secret "c" 16; secret "d" 24].
    split; [repeat split; vm_compute; reflexivity|]. split.
    + repeat constructor; exists 32%nat; (split; [reflexivity|lia]).
    + repeat constructor;
        [exists 16%nat|exists 24%nat]; (split; [reflexivity|lia]).
Defined.

(** C8 on an example: metrics on nfs fails, and passes once unsupported
    configurations are enabled. *)
Lemma check_unsupported_nfs_configs_example :
  fails (result (check_unsupported_nfs_configs plain_templar
                   (inventory {[ "openshift_metrics_storage_kind" := VStr "nfs" ]})
                   "host1") start_ctx)
  ∧ result (check_unsupported_nfs_configs plain_templar
              (inventory
                 {[ "openshift_metrics_storage_kind" := VStr "nfs";
                    "openshift_enable_unsupported_configurations" := VBool true ]})
              "host1") start_ctx = Return tt.
Proof.
  split.
  - refine (proj2 (proj1 (proj2 (proj2 (check_unsupported_nfs_configs_spec
              plain_templar
              (inventory {[ "openshift_metrics_storage_kind" := VStr "nfs" ]})
              "host1" {[ "openshift_metrics_storage_kind" := VStr "nfs" ]}
              start_ctx _)) _)) _).
    + vm_compute. reflexivity.
    + vm_compute. reflexivity.
    + exists "openshift_metrics_storage_kind". split.
      * unfold STORAGE_KIND_TUPLE. rewrite !elem_of_cons. tauto.
      * vm_compute. reflexivity.
  - refine (proj1 (proj2 (check_unsupported_nfs_configs_spec plain_templar
              (inventory
                 {[ "openshift_metrics_storage_kind" := VStr "nfs";
                    "openshift_enable_unsupported_configurations" := VBool true ]})
              "host1"
              {[ "openshift_metrics_storage_kind" := VStr "nfs";
                 "openshift_enable_unsupported_configurations" := VBool true ]}
              start_ctx _)) _); vm_compute; reflexivity.
Defined.

(** C9 as the specification states it does not hold: the float 1.0 is
    none of the enumerated representations, and [to_bool] is true on it. *)
Lemma to_bool_float_one :
  to_bool (VFloat 1%float) = true
  ∧ VFloat 1%float ∉ truthy_representations.
Proof.
  split; [vm_compute; reflexivity|].
  unfold truthy_representations. rewrite !not_elem_of_cons.
  repeat split; try discriminate. apply not_elem_of_nil.
Qed.

(** C10 on an example: the empty tag passes under a deployment type that
    is no key of the table of patterns. *)
Lemma check_image_tag_format_falsy_example :
  result (check_image_tag_format plain_templar object_text
            (inventory {[ "openshift_image_tag" := VStr "" ]}) "host1"
            (VStr "no-such-type")) start_ctx
  = Return tt.
Proof.
  refine (proj1 (check_image_tag_format_falsy plain_templar object_text
            (inventory {[ "openshift_image_tag" := VStr "" ]}) "host1"
            {[ "openshift_image_tag" := VStr "" ]} start_ctx _) _ _).
  - vm_compute. reflexivity.
  - left. vm_compute. reflexivity.
Defined.

(** * Further properties on example inventories *)

(** [run] without task variables. *)
Lemma run_requires_hostvars_example :
  result (run plain_templar object_text exception_text ∅ (Some ["host1"]) None)
         start_ctx
  = Raise (AnsibleModuleError_hostvars None).
Proof.
  refine (run_requires_hostvars plain_templar object_text exception_text
            ∅ ["host1"] None start_ctx _ _).
  - discriminate.
  - left. reflexivity.
Defined.

(** [run] on three hosts: the first passes, the second has a deployment
    type that is not valid, the third is not in the inventory and is not
    reached. *)
Lemma run_wraps_first_failure_example :
  result (run plain_templar object_text exception_text ∅
            (Some ["host1"; "host2"; "host3"])
            (Some {| tv_hostvars := Some two_hosts |})) start_ctx
  = Raise (AnsibleModuleError
      "last_checked_host: host2, last_checked_var: openshift_deployment_type;openshift_deployment_type must be defined and one of origin, openshift-enterprise").
Proof.
  refine (run_wraps_first_failure plain_templar object_text exception_text
            ∅ ["host1"] ["host3"] "host2"
            {| tv_hostvars := Some two_hosts |} two_hosts
            (AnsibleModuleError
               "openshift_deployment_type must be defined and one of origin, openshift-enterprise")
            start_ctx _ _ _ _).
  - reflexivity.
  - intros H. apply (f_equal (λ m : hostvars_t, m !! "host1")) in H.
    vm_compute in H. discriminate.
  - constructor; [|constructor]. vm_compute. reflexivity.
  - vm_compute. reflexivity.
Defined.

(** [run] keeps what the base class has put under another key. *)
Lemma run_result_record_example :
  ∃ res,
    result (run plain_templar object_text exception_text
              {[ "skipped" := VBool false ]} (Some ["host1"])
              (Some {| tv_hostvars := Some (inventory host1_vars) |}))
           start_ctx = Return res
    ∧ res !! "skipped" = Some (VBool false).
Proof.
  destruct (run_result_record plain_templar object_text exception_text
              {[ "skipped" := VBool false ]} ["host1"]
              {| tv_hostvars := Some (inventory host1_vars) |}
              (inventory host1_vars) start_ctx)
    as (res & Hres & _ & Hkeys).
  - discriminate.
  - reflexivity.
  - constructor; [|constructor]. vm_compute. reflexivity.
  - exists res. split; [exact Hres|].
    rewrite Hkeys by discriminate. vm_compute. reflexivity.
Defined.

(** A hostname of 63 characters passes. *)
Lemma check_hostname_vars_passes_example :
  result (check_hostname_vars plain_templar
            (inventory {[ "openshift_hostname" := hostname_of_length 63 ]})
            "host1") start_ctx
  = Return tt.
Proof.
  refine (proj2 (check_hostname_vars_passes plain_templar
            (inventory {[ "openshift_hostname" := hostname_of_length 63 ]})
            "host1" {[ "openshift_hostname" := hostname_of_length 63 ]}
            start_ctx _) _).
  - vm_compute. reflexivity.
  - split; [left; vm_compute; reflexivity|].
    right. exists 63%nat. split; [vm_compute; reflexivity|lia].
Defined.

(** A hostname of 64 characters fails, and the failure names it. *)
Lemma check_hostname_vars_too_long_example :
  result (check_hostname_vars plain_templar
            (inventory {[ "openshift_hostname" := hostname_of_length 64 ]})
            "host1") start_ctx
  = Raise (AnsibleModuleError
             "openshift_hostname must be 63 characters or less").
Proof.
  refine (proj2 (check_hostname_vars_too_long plain_templar
            (inventory {[ "openshift_hostname" := hostname_of_length 64 ]})
            "host1" {[ "openshift_hostname" := hostname_of_length 64 ]}
            start_ctx _) _ _ _ _).
  - vm_compute. reflexivity.
  - left. vm_compute. reflexivity.
  - vm_compute. reflexivity.
  - vm_compute. lia.
Defined.

(** A hostname that is a number raises [TypeError]. *)
Lemma check_hostname_vars_unsized_example :
  result (check_hostname_vars plain_templar
            (inventory {[ "openshift_hostname" := VInt 12345 ]})
            "host1") start_ctx
  = Raise TypeError.
Proof.
  refine (proj2 (check_hostname_vars_unsized plain_templar
            (inventory {[ "openshift_hostname" := VInt 12345 ]})
            "host1" {[ "openshift_hostname" := VInt 12345 ]}
            start_ctx _) _ _ _).
  - vm_compute. reflexivity.
  - left. vm_compute. reflexivity.
  - vm_compute. reflexivity.
  - vm_compute. reflexivity.
Defined.

(** A host without python facts, on a distro that is not Fedora. *)
Lemma check_python_version_missing_facts_example :
  result (check_python_version plain_templar object_text
            (inventory {[ "ansible_distribution" := VStr "CentOS" ]})
            "host1" (VStr "CentOS")) start_ctx
  = Raise TypeError.
Proof.
  refine (proj1 (check_python_version_missing_facts plain_templar object_text
            (inventory {[ "ansible_distribution" := VStr "CentOS" ]})
            "host1" {[ "ansible_distribution" := VStr "CentOS" ]}
            (VStr "CentOS") start_ctx _) _).
  - vm_compute. reflexivity.
  - intros d. vm_compute. discriminate.
Defined.

(** Logging and metrics both on nfs: the failure names logging, which
    comes first in the tuple. *)
Lemma check_unsupported_nfs_configs_first_example :
  result (check_unsupported_nfs_configs plain_templar
            (inventory {[ "openshift_metrics_storage_kind" := VStr "nfs";
                          "openshift_logging_storage_kind" := VStr "nfs" ]})
            "host1") start_ctx
  = Raise (AnsibleModuleError
      "nfs is an unsupported type for openshift_logging_storage_kind. openshift_enable_unsupported_configurations=True mustbe specified to continue with this configuration.").
Proof.
  unfold result.
  rewrite (check_unsupported_nfs_configs_first plain_templar
            (inventory {[ "openshift_metrics_storage_kind" := VStr "nfs";
                          "openshift_logging_storage_kind" := VStr "nfs" ]})
            "host1"
            {[ "openshift_metrics_storage_kind" := VStr "nfs";
               "openshift_logging_storage_kind" := VStr "nfs" ]} start_ctx).
  - vm_compute. reflexivity.
  - vm_compute. reflexivity.
  - vm_compute. reflexivity.
Defined.

(** After the network rule on the example host the last checked variable
    is the last plugin of the list. *)
Lemma last_checked_var_of_rules_example :
  last_checked_var (network_plugin_check plain_templar
                      (inventory host1_vars) "host1" start_ctx).2
  = "openshift_use_kuryr".
Proof.
  refine (proj1 (last_checked_var_of_rules plain_templar
            (inventory host1_vars) "host1" host1_vars start_ctx _)).
  vm_compute. reflexivity.
Defined.

(** The provider with the legacy key passes once the htpasswd file is
    managed. *)
Lemma check_htpasswd_provider_managed_example :
  result (check_htpasswd_provider plain_templar
            (inventory (<["openshift_master_manage_htpasswd" := VBool true]>
                          htpasswd_vars)) "host1") start_ctx
  = Return tt.
Proof.
  refine (check_htpasswd_provider_managed plain_templar
            (inventory (<["openshift_master_manage_htpasswd" := VBool true]>
                          htpasswd_vars)) "host1"
            (<["openshift_master_manage_htpasswd" := VBool true]> htpasswd_vars)
            start_ctx _ _); vm_compute; reflexivity.
Defined.

(** Identity providers given as a string. *)
Lemma check_htpasswd_provider_malformed_example :
  result (check_htpasswd_provider plain_templar
            (inventory {[ "openshift_master_identity_providers" :=
                            VStr "htpasswd_auth" ]}) "host1") start_ctx
  = Raise TypeError.
Proof.
  refine (proj1 (check_htpasswd_provider_malformed plain_templar
            (inventory {[ "openshift_master_identity_providers" :=
                            VStr "htpasswd_auth" ]}) "host1"
            {[ "openshift_master_identity_providers" := VStr "htpasswd_auth" ]}
            start_ctx _ _ _) _).
  - vm_compute. reflexivity.
  - vm_compute. reflexivity.
  - vm_compute. reflexivity.
  - intros providers. vm_compute. discriminate.
Defined.

(** The tag "v3.9" under openshift-enterprise. *)
Lemma check_image_tag_format_enterprise_example :
  result (check_image_tag_format plain_templar object_text
            (inventory {[ "openshift_image_tag" := VStr "v3.9" ]}) "host1"
            (VStr "openshift-enterprise")) start_ctx
  = Return tt.
Proof.
  refine (proj2 (proj1 (check_image_tag_format_enterprise plain_templar
            object_text
            (inventory {[ "openshift_image_tag" := VStr "v3.9" ]}) "host1"
            {[ "openshift_image_tag" := VStr "v3.9" ]} "v3.9" start_ctx _ _)) _).
  - vm_compute. reflexivity.
  - vm_compute. reflexivity.
  - right. right.
    exists {| et_major := "3"; et_minor := "9"; et_more := [];
              et_build := None |}.
    split; [reflexivity|]. left. reflexivity.
Defined.

(** The tag "3.9.0-alpha" under origin. *)
Lemma check_image_tag_format_origin_example :
  result (check_image_tag_format plain_templar object_text
            (inventory {[ "openshift_image_tag" := VStr "3.9.0-alpha" ]})
            "host1" (VStr "origin")) start_ctx
  = Return tt.
Proof.
  refine (proj2 (proj1 (check_image_tag_format_origin plain_templar
            object_text
            (inventory {[ "openshift_image_tag" := VStr "3.9.0-alpha" ]})
            "host1" {[ "openshift_image_tag" := VStr "3.9.0-alpha" ]}
            "3.9.0-alpha" start_ctx _ _)) _).
  - vm_compute. reflexivity.
  - vm_compute. reflexivity.
  - right. right. exists "", "3", "9", ".0-alpha".
    split; [by left|]. split; [reflexivity|]. split; reflexivity.
Defined.

(** The deployment type of the example host, given to the image-tag
    rule. *)
Lemma check_image_tag_format_after_deployment_type_example :
  result (check_image_tag_format plain_templar object_text
            (inventory host1_vars) "host1" (VStr "origin")) start_ctx
  = Return tt
  ∨ fails (result (check_image_tag_format plain_templar object_text
                     (inventory host1_vars) "host1" (VStr "origin"))
                  start_ctx).
Proof.
  refine (proj2 (proj2 (check_image_tag_format_after_deployment_type
            plain_templar object_text (inventory host1_vars) "host1"
            host1_vars (VStr "origin") start_ctx _ _))).
  - vm_compute. reflexivity.
  - vm_compute. reflexivity.
Defined.

(** The example host sets no network plugin and passes the network rule;
    with flannel switched on and nothing else set it fails. *)
Lemma network_plugin_check_defaults_example :
  result (network_plugin_check plain_templar (inventory host1_vars) "host1")
         start_ctx = Return tt
  ∧ fails (result (network_plugin_check plain_templar
                     (inventory {[ "openshift_use_flannel" := VBool true ]})
                     "host1") start_ctx).
Proof.
  split.
  - refine (proj1 (network_plugin_check_defaults plain_templar
              (inventory host1_vars) "host1" host1_vars start_ctx _) _).
    + vm_compute. reflexivity.
    + intros plugin Hin. cbn in Hin.
      rewrite !elem_of_cons, elem_of_nil in Hin.
      destruct Hin as [->|[->|[->|[->|[->|[->|[]]]]]]];
        vm_compute; reflexivity.
  - refine (proj2 (network_plugin_check_defaults plain_templar
              (inventory {[ "openshift_use_flannel" := VBool true ]}) "host1"
              {[ "openshift_use_flannel" := VBool true ]} start_ctx _)
              _ "openshift_use_flannel" _ _).
    + vm_compute. reflexivity.
    + vm_compute. reflexivity.
    + apply list_elem_of_here.
    + vm_compute. reflexivity.
Defined.
